(** * Log viewer: the parsing and pattern-analysis engine

    A shallow embedding of [src/log_parser.py] (class [LogParser]) and
    [src/data_analyzer.py] (class [DataAnalyzer]), and the properties of
    both that the specification states.

    Modelling conventions.
    - A Python [str] is a [string]; characters are ASCII code points.  The
      character classes [\d], [\s], [\w] and [str.strip] are the ASCII
      restrictions of Python's (so [\s] is 9-13, 28-31 and 32).
    - A compiled regular expression is a value of [Re.regex], run by a
      backtracking matcher with Python's priorities (leftmost start, first
      alternative first, greedy quantifiers).
    - [datetime.strptime] follows CPython's [_strptime]: the format is turned
      into a regular expression with one group per directive, matched against
      the whole text, and the fields are range-checked (English month names).
    - What the code reads from its environment is an argument: the current
      year ([datetime.now().year]), the file system (what [open] and the
      reading of each path do), and the order in which the futures of the
      worker pool complete.
    - A Python exception is the [Raised] case of [outcome]; a statement
      that can raise after changing its local state returns both, and
      [try_except] is the [try/except Exception] around it.
    - A pandas DataFrame is the list of its rows, a Timestamp is the number
      of nanoseconds since the epoch, and [NaT]/[None] is an absent option.
      Library behaviour that pandas or Python leave open (the order among
      equal counts in [value_counts], the order of [list(set(...))], the
      text of a Timestamp, the parser of [pd.to_datetime]) is a section
      variable, with its contract as a hypothesis where a proof needs it. *)

From Stdlib Require Import String Ascii List ZArith Bool Lia Arith.
From Stdlib Require Import Permutation Sorted DecimalString.
Import ListNotations.

Local Open Scope string_scope.
Local Open Scope list_scope.

(** ** Python string primitives *)

Module PyStr.

Definition code (c : ascii) : nat := nat_of_ascii c.

Definition in_range (lo hi : nat) (c : ascii) : bool :=
  (lo <=? code c)%nat && (code c <=? hi)%nat.

Definition is_digit (c : ascii) : bool := in_range 48 57 c.
Definition is_upper (c : ascii) : bool := in_range 65 90 c.
Definition is_lower (c : ascii) : bool := in_range 97 122 c.
Definition is_alpha (c : ascii) : bool := is_upper c || is_lower c.

(** [str.isspace] on one ASCII character. *)
Definition is_space (c : ascii) : bool :=
  in_range 9 13 c || in_range 28 32 c.

(** [\w] *)
Definition is_word (c : ascii) : bool :=
  is_alpha c || is_digit c || Ascii.eqb c "_"%char.

Definition lower_char (c : ascii) : ascii :=
  if is_upper c then ascii_of_nat (code c + 32) else c.

Definition upper_char (c : ascii) : ascii :=
  if is_lower c then ascii_of_nat (code c - 32) else c.

Fixpoint map_chars (f : ascii -> ascii) (s : string) : string :=
  match s with
  | EmptyString => EmptyString
  | String c t => String (f c) (map_chars f t)
  end.

(** [s.upper()] and [s.lower()] *)
Definition upper (s : string) : string := map_chars upper_char s.
Definition lower (s : string) : string := map_chars lower_char s.

(** [s.lstrip()] *)
Fixpoint lstrip (s : string) : string :=
  match s with
  | EmptyString => EmptyString
  | String c t => if is_space c then lstrip t else s
  end.

(** [s.rstrip()]: a character is kept when it is not white space or when
    something is kept after it. *)
Fixpoint rstrip (s : string) : string :=
  match s with
  | EmptyString => EmptyString
  | String c t =>
      match rstrip t with
      | EmptyString => if is_space c then EmptyString else String c EmptyString
      | r => String c r
      end
  end.

(** [s.strip()] *)
Definition strip (s : string) : string := rstrip (lstrip s).

(** [s.rstrip(ch)] for a one-character argument. *)
Fixpoint rstrip_char (ch : ascii) (s : string) : string :=
  match s with
  | EmptyString => EmptyString
  | String c t =>
      match rstrip_char ch t with
      | EmptyString => if Ascii.eqb c ch then EmptyString else String c EmptyString
      | r => String c r
      end
  end.

(** [s.replace(a, b)] for one-character arguments. *)
Definition replace_char (a b : ascii) (s : string) : string :=
  map_chars (fun c => if Ascii.eqb c a then b else c) s.

(** [ch in s] *)
Fixpoint contains_char (ch : ascii) (s : string) : bool :=
  match s with
  | EmptyString => false
  | String c t => Ascii.eqb c ch || contains_char ch t
  end.

(** [s[:n]] and [s[n:]] for [n >= 0], and [s[a:b]] for [0 <= a <= b]. *)
Fixpoint take (n : nat) (s : string) : string :=
  match n, s with
  | S n', String c t => String c (take n' t)
  | _, _ => EmptyString
  end.

Fixpoint drop (n : nat) (s : string) : string :=
  match n, s with
  | S n', String _ t => drop n' t
  | _, _ => s
  end.

Definition slice (a b : nat) (s : string) : string := take (b - a) (drop a s).

(** Truth value of a [str]: the empty string is false. *)
Definition truthy (s : string) : bool :=
  match s with EmptyString => false | _ => true end.

(** [str(n)] for an [int]. *)
Definition of_Z (z : Z) : string := NilZero.string_of_int (Z.to_int z).

(** [int(s)] for a text made of an optional run of leading blanks and
    decimal digits, as the groups of a matched timestamp are. *)
Fixpoint digits_value (acc : Z) (s : string) : Z :=
  match s with
  | EmptyString => acc
  | String c t =>
      if is_digit c then digits_value (10 * acc + Z.of_nat (code c - 48)) t
      else digits_value acc t
  end.

Definition to_int (s : string) : Z := digits_value 0 s.

End PyStr.

(** ** Regular expressions ([re]) *)

Module Re.

Inductive regex : Type :=
| Eps
| Cls (p : ascii -> bool)
| Cat (a b : regex)
| Alt (a b : regex)
| Opt (a : regex)
| Star (a : regex)
| Grp (g : nat) (a : regex)
| WordB.

(** The matcher's position in the subject: the number of characters
    consumed, the character before the position, the text after it, and the
    spans of the groups closed so far. *)
Record mstate : Type := MState {
  pos : nat;
  prev : option ascii;
  rest : string;
  caps : list (nat * (nat * nat))
}.

Definition advance (c : ascii) (t : string) (st : mstate) : mstate :=
  MState (S (pos st)) (Some c) t (caps st).

Definition set_cap (g a b : nat) (st : mstate) : mstate :=
  MState (pos st) (prev st) (rest st) ((g, (a, b)) :: caps st).

Definition word_opt (c : option ascii) : bool :=
  match c with Some x => PyStr.is_word x | None => false end.

Definition next_char (st : mstate) : option ascii :=
  match rest st with String c _ => Some c | EmptyString => None end.

Definition at_boundary (st : mstate) : bool :=
  xorb (word_opt (prev st)) (word_opt (next_char st)).

(** Backtracking match of [r] at [st], continuing with [k]; the first
    success in priority order is returned. *)
Fixpoint run {A : Type} (r : regex) (st : mstate) (k : mstate -> option A)
  : option A :=
  match r with
  | Eps => k st
  | Cls p =>
      match rest st with
      | String c t => if p c then k (advance c t st) else None
      | EmptyString => None
      end
  | Cat a b => run a st (fun st' => run b st' k)
  | Alt a b =>
      match run a st k with
      | Some x => Some x
      | None => run b st k
      end
  | Opt a =>
      match run a st k with
      | Some x => Some x
      | None => k st
      end
  | Star a =>
      (fix loop (fuel : nat) (s : mstate) {struct fuel} : option A :=
         match fuel with
         | O => k s
         | S f =>
             match run a s (fun s' => if (pos s <? pos s')%nat
                                      then loop f s' else None) with
             | Some x => Some x
             | None => k s
             end
         end) (S (String.length (rest st))) st
  | Grp g a => run a st (fun st' => k (set_cap g (pos st) (pos st') st'))
  | WordB => if at_boundary st then k st else None
  end.

(** A match object: [m.start()], [m.end()] and the group spans. *)
Record match_obj : Type := Match {
  m_start : nat;
  m_end : nat;
  m_caps : list (nat * (nat * nat))
}.

Definition match_here (r : regex) (st : mstate) : option match_obj :=
  run r st (fun st' => Some (Match (pos st) (pos st') (caps st'))).

(** [pattern.match(s)] *)
Definition match_ (r : regex) (s : string) : option match_obj :=
  match_here r (MState 0 None s []).

Fixpoint search_from (r : regex) (p : nat) (pv : option ascii) (s : string)
  : option match_obj :=
  match match_here r (MState p pv s []) with
  | Some m => Some m
  | None =>
      match s with
      | EmptyString => None
      | String c t => search_from r (S p) (Some c) t
      end
  end.

(** [pattern.search(s)] *)
Definition search (r : regex) (s : string) : option match_obj :=
  search_from r 0 None s.

Fixpoint lookup_cap (g : nat) (l : list (nat * (nat * nat)))
  : option (nat * nat) :=
  match l with
  | [] => None
  | (g', sp) :: t => if (g =? g')%nat then Some sp else lookup_cap g t
  end.

(** [m.group(g)] on the subject [s]; [None] when the group did not take
    part in the match. *)
Definition group (g : nat) (s : string) (m : match_obj) : option string :=
  match lookup_cap g (m_caps m) with
  | Some (a, b) => Some (PyStr.slice a b s)
  | None => None
  end.

(** *** Pattern syntax *)

Definition chr (c : ascii) : regex := Cls (Ascii.eqb c).

(** A literal character under [re.IGNORECASE]. *)
Definition chr_i (c : ascii) : regex :=
  Cls (fun x => Ascii.eqb (PyStr.lower_char x) (PyStr.lower_char c)).

Fixpoint lit (s : string) : regex :=
  match s with
  | EmptyString => Eps
  | String c EmptyString => chr c
  | String c t => Cat (chr c) (lit t)
  end.

Fixpoint lit_i (s : string) : regex :=
  match s with
  | EmptyString => Eps
  | String c EmptyString => chr_i c
  | String c t => Cat (chr_i c) (lit_i t)
  end.

Fixpoint seq (l : list regex) : regex :=
  match l with
  | [] => Eps
  | [r] => r
  | r :: t => Cat r (seq t)
  end.

Fixpoint alts (l : list regex) : regex :=
  match l with
  | [] => Cls (fun _ => false)
  | [r] => r
  | r :: t => Alt r (alts t)
  end.

(** [r{n}] *)
Fixpoint rep (n : nat) (r : regex) : regex :=
  match n with
  | O => Eps
  | 1%nat => r
  | S n' => Cat r (rep n' r)
  end.

(** [r{,n}] (greedy) *)
Fixpoint upto (n : nat) (r : regex) : regex :=
  match n with
  | O => Eps
  | S n' => Opt (Cat r (upto n' r))
  end.

(** [r+] *)
Definition plus (r : regex) : regex := Cat r (Star r).

Definition digit : regex := Cls PyStr.is_digit.
Definition alpha : regex := Cls PyStr.is_alpha.
Definition space : regex := Cls PyStr.is_space.
(** [.] (without [re.DOTALL]) *)
Definition dot : regex := Cls (fun c => negb (Ascii.eqb c "010"%char)).
Definition one_of (s : string) : regex := Cls (fun c => PyStr.contains_char c s).

End Re.

(** ** [datetime] and [datetime.strptime] *)

Record datetime : Type := DateTime {
  year : Z; month : Z; day : Z;
  hour : Z; minute : Z; second : Z;
  microsecond : Z
}.

Module Strptime.
Import Re.

Definition is_leap (y : Z) : bool :=
  ((y mod 4 =? 0) && (negb (y mod 100 =? 0) || (y mod 400 =? 0)))%Z.

Definition days_in_month (y m : Z) : Z :=
  if (m =? 2)%Z then (if is_leap y then 29 else 28)
  else if ((m =? 4) || (m =? 6) || (m =? 9) || (m =? 11))%Z then 30
  else 31.

(** The range checks of the [datetime] constructor. *)
Definition valid_datetime (d : datetime) : bool :=
  ((1 <=? year d) && (year d <=? 9999) &&
   (1 <=? month d) && (month d <=? 12) &&
   (1 <=? day d) && (day d <=? days_in_month (year d) (month d)) &&
   (0 <=? hour d) && (hour d <=? 23) &&
   (0 <=? minute d) && (minute d <=? 59) &&
   (0 <=? second d) && (second d <=? 59) &&
   (0 <=? microsecond d) && (microsecond d <=? 999999))%Z.

(** Group numbers standing for the named groups of [_strptime]. *)
Definition gY := 10%nat.
Definition gm := 11%nat.
Definition gd := 12%nat.
Definition gH := 13%nat.
Definition gM := 14%nat.
Definition gS := 15%nat.
Definition gb := 16%nat.
Definition gf := 17%nat.

Definition range (lo hi : string) : regex :=
  Cls (fun c => (PyStr.code (match lo with String a _ => a | _ => c end) <=? PyStr.code c)%nat
             && (PyStr.code c <=? PyStr.code (match hi with String a _ => a | _ => c end))%nat).

Definition month_abbr : list string :=
  ["jan"; "feb"; "mar"; "apr"; "may"; "jun";
   "jul"; "aug"; "sep"; "oct"; "nov"; "dec"].

(** The regular expression of one directive (the table of [TimeRE]). *)
Definition directive_regex (c : ascii) : option regex :=
  if Ascii.eqb c "Y" then Some (Grp gY (rep 4 digit))
  else if Ascii.eqb c "m" then
    Some (Grp gm (alts [Cat (chr "1") (range "0" "2");
                        Cat (chr "0") (range "1" "9");
                        range "1" "9"]))
  else if Ascii.eqb c "d" then
    Some (Grp gd (alts [Cat (chr "3") (range "0" "1");
                        Cat (range "1" "2") digit;
                        Cat (chr "0") (range "1" "9");
                        range "1" "9";
                        Cat (chr " ") (range "1" "9")]))
  else if Ascii.eqb c "H" then
    Some (Grp gH (alts [Cat (chr "2") (range "0" "3");
                        Cat (range "0" "1") digit;
                        digit]))
  else if Ascii.eqb c "M" then
    Some (Grp gM (alts [Cat (range "0" "5") digit; digit]))
  else if Ascii.eqb c "S" then
    Some (Grp gS (alts [Cat (chr "6") (range "0" "1");
                        Cat (range "0" "5") digit;
                        digit]))
  else if Ascii.eqb c "b" then Some (Grp gb (alts (map lit_i month_abbr)))
  else if Ascii.eqb c "f" then Some (Grp gf (Cat digit (upto 5 digit)))
  else None.

(** [TimeRE.pattern]: a run of white space in the format becomes [\s+], a
    directive its regular expression, any other character itself (the
    expression is compiled with IGNORECASE).  [None] is the [ValueError] of
    a stray [%] or of a directive outside the table. *)
Fixpoint pattern (in_ws : bool) (fmt : string) : option regex :=
  match fmt with
  | EmptyString => Some Eps
  | String c t =>
      if Ascii.eqb c "%" then
        match t with
        | EmptyString => None
        | String d t' =>
            match directive_regex d, pattern false t' with
            | Some r, Some r' => Some (Cat r r')
            | _, _ => None
            end
        end
      else if PyStr.is_space c then
        match pattern true t with
        | Some r' => Some (if in_ws then r' else Cat (plus space) r')
        | None => None
        end
      else
        match pattern false t with
        | Some r' => Some (Cat (chr_i c) r')
        | None => None
        end
  end.

Definition field (g : nat) (text : string) (m : match_obj) (default : Z) : Z :=
  match group g text m with
  | Some s => PyStr.to_int s
  | None => default
  end.

Fixpoint index_of (s : string) (l : list string) (i : Z) : Z :=
  match l with
  | [] => 0
  | x :: t => if String.eqb x s then i else index_of s t (i + 1)
  end.

Fixpoint pad_right (n : nat) (s : string) : string :=
  match n with
  | O => EmptyString
  | S n' =>
      match s with
      | EmptyString => String "0" (pad_right n' EmptyString)
      | String c t => String c (pad_right n' t)
      end
  end.

(** [datetime.strptime(text, fmt)]; [None] is [ValueError]. *)
Definition strptime (text fmt : string) : option datetime :=
  match pattern false fmt with
  | None => None
  | Some r =>
      match match_ r text with
      | None => None
      | Some m =>
          if (m_end m =? String.length text)%nat then
            let mo :=
              match group gb text m with
              | Some s => index_of (PyStr.lower s) month_abbr 1
              | None => field gm text m 1
              end in
            let us :=
              match group gf text m with
              | Some s => PyStr.to_int (pad_right 6 s)
              | None => 0%Z
              end in
            let d := DateTime (field gY text m 1900) mo (field gd text m 1)
                              (field gH text m 0) (field gM text m 0)
                              (field gS text m 0) us in
            if valid_datetime d then Some d else None
          else None
      end
  end.

End Strptime.

(** ** [LogParser] (src/log_parser.py) *)

Module LogParser.
Import Re.

(** The parser's configuration, set by [__init__]. *)
Record config : Type := Config {
  treat_warnings_as_errors : bool
}.

Definition d2 : regex := rep 2 digit.
Definition d4 : regex := rep 4 digit.
(** [\d{1,2}] *)
Definition d12 : regex := Cat digit (Opt digit).
(** [\d{2}:\d{2}:\d{2}] *)
Definition hms : regex := seq [d2; chr ":"; d2; chr ":"; d2].
(** [\d{4}-\d{2}-\d{2}] *)
Definition ymd : regex := seq [d4; chr "-"; d2; chr "-"; d2].

(** [self.timestamp_patterns], in the order of the source; the capturing
    group of each pattern is group 1. *)
Definition timestamp_patterns : list (regex * string) :=
  [ (* (\d{4}-\d{2}-\d{2}[T ]\d{2}:\d{2}:\d{2}(?:\.\d{3})?(?:Z|[+-]\d{2}:?\d{2})?) *)
    (Grp 1 (seq [ymd; Alt (chr_i "T") (chr " "); hms;
                 Opt (Cat (chr ".") (rep 3 digit));
                 Opt (Alt (chr_i "Z")
                          (seq [one_of "+-"; d2; Opt (chr ":"); d2]))]),
     "%Y-%m-%d %H:%M:%S");
    (* ([A-Za-z]{3} \d{1,2} \d{2}:\d{2}:\d{2}) *)
    (Grp 1 (seq [rep 3 alpha; chr " "; d12; chr " "; hms]),
     "%b %d %H:%M:%S");
    (* \[(\d{2}/[A-Za-z]{3}/\d{4}:\d{2}:\d{2}:\d{2}(?: [+-]\d{4})?)\] *)
    (seq [chr "[";
          Grp 1 (seq [d2; chr "/"; rep 3 alpha; chr "/"; d4; chr ":"; hms;
                      Opt (seq [chr " "; one_of "+-"; d4])]);
          chr "]"],
     "%d/%b/%Y:%H:%M:%S");
    (* (\d{4}-\d{2}-\d{2} \d{2}:\d{2}:\d{2}) *)
    (Grp 1 (seq [ymd; chr " "; hms]),
     "%Y-%m-%d %H:%M:%S");
    (* (\d{1,2}/\d{1,2}/\d{4} \d{2}:\d{2}:\d{2}) *)
    (Grp 1 (seq [d12; chr "/"; d12; chr "/"; d4; chr " "; hms]),
     "%m/%d/%Y %H:%M:%S");
    (* (\d{4}-\d{2}-\d{2} \d{2}:\d{2}:\d{2}\.\d{3}) *)
    (Grp 1 (seq [ymd; chr " "; hms; chr "."; rep 3 digit]),
     "%Y-%m-%d %H:%M:%S.%f") ].

(** [self.log_level_pattern] *)
Definition log_level_pattern : regex :=
  seq [WordB;
       Grp 1 (alts (map lit_i ["TRACE"; "DEBUG"; "INFO"; "INFORMATION"; "WARN";
                               "WARNING"; "ERROR"; "FATAL"; "CRITICAL";
                               "SEVERE"]));
       WordB].

(** [a\s+b], [a\s+b\s+c], ... under IGNORECASE *)
Fixpoint words (l : list string) : regex :=
  match l with
  | [] => Eps
  | [w] => lit_i w
  | w :: t => seq [lit_i w; plus space; words t]
  end.

(** [a.*b] under IGNORECASE *)
Definition then_ (a : string) (b : regex) : regex :=
  seq [lit_i a; Star dot; b].

(** [self.error_patterns], a dict in insertion order. *)
Definition error_patterns : list (string * list regex) :=
  [ ("credit_card_errors",
     [words ["payment"; "gateway"]; words ["credit"; "card"];
      words ["card"; "declined"]; words ["payment"; "failed"];
      words ["transaction"; "timeout"]; words ["authorization"; "failed"];
      words ["invalid"; "card"]; words ["payment"; "processor"];
      words ["merchant"; "account"]]);
    ("database_errors",
     [words ["connection"; "refused"]; words ["cannot"; "connect"];
      words ["database"; "error"]; words ["sql"; "error"];
      then_ "timeout" (lit_i "database"); lit_i "deadlock";
      words ["connection"; "lost"]; then_ "mysql" (lit_i "error");
      then_ "postgresql" (lit_i "error"); then_ "oracle" (lit_i "error")]);
    ("server_errors",
     [then_ "http" (Cat (lit "50") digit); then_ "status" (Cat (lit "50") digit);
      words ["internal"; "server"; "error"]; words ["service"; "unavailable"];
      words ["gateway"; "timeout"]; words ["bad"; "gateway"];
      words ["server"; "error"]]);
    ("timeout_errors",
     [lit_i "timeout"; words ["timed"; "out"]; words ["connection"; "timeout"];
      words ["read"; "timeout"]; words ["request"; "timeout"]]);
    ("authentication_errors",
     [words ["authentication"; "failed"]; lit_i "unauthorized";
      words ["access"; "denied"]; lit_i "forbidden";
      words ["invalid"; "credentials"]; words ["login"; "failed"]]);
    ("exception_errors",
     [lit_i "exception"; words ["stack"; "trace"]; words ["null"; "pointer"];
      words ["out"; "of"; "memory"]; words ["segmentation"; "fault"]]) ].

(** [key[_\s]+id[:\s]+([a-zA-Z0-9\-_]+)] under IGNORECASE *)
Definition id_pattern (key : string) : regex :=
  seq [lit_i key;
       plus (Cls (fun c => Ascii.eqb c "_" || PyStr.is_space c));
       lit_i "id";
       plus (Cls (fun c => Ascii.eqb c ":" || PyStr.is_space c));
       Grp 1 (plus (Cls (fun c => PyStr.is_alpha c || PyStr.is_digit c
                                  || Ascii.eqb c "-" || Ascii.eqb c "_")))].

(** [self.transaction_patterns] *)
Definition transaction_patterns : list regex :=
  map id_pattern ["transaction"; "txn"; "order"; "ref"].

(** [self.warning_patterns]; the last two are case-sensitive. *)
Definition warning_patterns : list regex :=
  [ seq [WordB; words ["php"; "warning"]; WordB];
    seq [WordB; words ["php"; "notice"]; WordB];
    seq [WordB; lit_i "deprecated"; WordB];
    seq [WordB; lit "E_WARNING"; WordB];
    seq [WordB; lit "E_NOTICE"; WordB] ].

(** [match.group(1)]; group 1 lies outside every optional part of the
    patterns above, so it takes part in each of their matches. *)
Definition group1 (s : string) (m : match_obj) : string :=
  match group 1 s m with Some g => g | None => EmptyString end.

(** The body of the [try] block of [detect_timestamp] up to the call of
    [strptime]; [None] is the [ValueError] that the [except] clause turns
    into [continue].  [current_year] is [datetime.now().year]. *)
Definition parse_matched (current_year : Z) (timestamp_str date_format : string)
  : option datetime :=
  let timestamp_str :=
    if PyStr.contains_char "T" timestamp_str
    then PyStr.rstrip_char "Z" (PyStr.replace_char "T" " " timestamp_str)
    else timestamp_str in
  let '(timestamp_str, date_format) :=
    if String.eqb date_format "%b %d %H:%M:%S"
    then ((PyStr.of_Z current_year ++ " " ++ timestamp_str)%string,
          "%Y %b %d %H:%M:%S")
    else (timestamp_str, date_format) in
  Strptime.strptime (PyStr.take 19 timestamp_str) (PyStr.take 19 date_format).

(** The [for] loop of [detect_timestamp] over the remaining patterns. *)
Fixpoint detect_timestamp_in (patterns : list (regex * string))
    (current_year : Z) (line : string) : option datetime * string :=
  match patterns with
  | [] => (None, line)
  | (pattern, date_format) :: patterns' =>
      match search pattern line with
      | Some m =>
          match parse_matched current_year (group1 line m) date_format with
          | Some timestamp =>
              let remaining_line := PyStr.strip (PyStr.drop (m_end m) line) in
              (Some timestamp, remaining_line)
          | None => detect_timestamp_in patterns' current_year line
          end
      | None => detect_timestamp_in patterns' current_year line
      end
  end.

Definition detect_timestamp (current_year : Z) (line : string)
  : option datetime * string :=
  detect_timestamp_in timestamp_patterns current_year line.

Definition extract_log_level (line : string) : option string * string :=
  match search log_level_pattern line with
  | Some m =>
      let level := PyStr.upper (group1 line m) in
      let remaining_line :=
        (PyStr.take (m_start m) line ++ PyStr.drop (m_end m) line)%string in
      (Some level, PyStr.strip remaining_line)
  | None => (None, line)
  end.

Definition searches (pattern : regex) (line : string) : bool :=
  match search pattern line with Some _ => true | None => false end.

Definition classify_error (line : string) : list string :=
  flat_map (fun '(category, patterns) =>
              if existsb (fun pattern => searches pattern line) patterns
              then [category] else [])
           error_patterns.

Fixpoint extract_transaction_id_in (patterns : list regex) (line : string)
  : option string :=
  match patterns with
  | [] => None
  | pattern :: patterns' =>
      match search pattern line with
      | Some m => Some (group1 line m)
      | None => extract_transaction_id_in patterns' line
      end
  end.

Definition extract_transaction_id (line : string) : option string :=
  extract_transaction_id_in transaction_patterns line.

(** The dict returned by [parse_line]. *)
Record record : Type := Record_ {
  timestamp : option datetime;
  log_level : option string;
  message : string;
  original_line : string;
  error_categories : list string;
  transaction_id : option string;
  file_path : string;
  line_number : Z;
  is_warning : bool;
  is_error_strict : bool;
  has_error : bool
}.

(** Truth value of an optional [str]: [None] and the empty string are false. *)
Definition truthy_opt (o : option string) : bool :=
  match o with Some s => PyStr.truthy s | None => false end.

(** [x in [...]] for an optional [str] *)
Definition level_in (o : option string) (l : list string) : bool :=
  match o with Some s => existsb (String.eqb s) l | None => false end.

(** A [max_lines] argument: [None] or an [int]; [None] and [0] are false. *)
Definition cap_truthy (max_lines : option Z) : bool :=
  match max_lines with Some k => negb (k =? 0)%Z | None => false end.

Definition parse_line (cfg : config) (current_year : Z)
    (line file_path : string) (line_number : Z) : option record :=
  let original_line := PyStr.strip line in
  if negb (PyStr.truthy original_line) then None
  else
    let '(timestamp, line_after_ts) := detect_timestamp current_year original_line in
    let '(log_level, line_after_level) := extract_log_level line_after_ts in
    let error_categories := classify_error original_line in
    let is_warning_level :=
      if truthy_opt log_level then level_in log_level ["WARN"; "WARNING"]
      else false in
    let is_warning_phrase :=
      existsb (fun p => searches p original_line) warning_patterns in
    let is_warning := is_warning_level || is_warning_phrase in
    let is_error_strict :=
      if truthy_opt log_level
      then (0 <? length error_categories)%nat
           || level_in log_level ["ERROR"; "FATAL"; "CRITICAL"]
      else (0 <? length error_categories)%nat in
    let has_error :=
      is_error_strict || (is_warning && treat_warnings_as_errors cfg) in
    let transaction_id := extract_transaction_id original_line in
    Some (Record_ timestamp log_level line_after_level original_line
                  error_categories transaction_id file_path line_number
                  is_warning is_error_strict has_error).

(** *** Exceptions and files *)

Inductive exn : Type := OSError | ValueError.

Inductive outcome (A : Type) : Type :=
| Returned (a : A)
| Raised (e : exn).
Arguments Returned {A} a.
Arguments Raised {A} e.

(** How the iteration over an open file ends. *)
Inductive stream_end : Type := Eof | ReadError (e : exn).

(** What [open] and the iteration over the file do for one path: [open]
    raises, or the iteration yields [lines] and then ends or raises. *)
Inductive file : Type :=
| Unopenable (e : exn)
| Opened (lines : list string) (tail : stream_end).

Definition filesystem : Type := string -> file.

(** A statement that works on the local state [S] and may raise. *)
Definition stmt (S : Type) : Type := (S * outcome unit)%type.

(** [try: body / except Exception: log] *)
Definition try_except {S : Type} (body : stmt S) : stmt S :=
  match body with
  | (s, Raised _) => (s, Returned tt)
  | (s, Returned u) => (s, Returned u)
  end.

(** The [for] loop of [parse_file]; the state is [parsed_lines]. *)
Fixpoint read_loop (cfg : config) (current_year : Z) (file_path : string)
    (max_lines : option Z) (line_number : Z) (lines : list string)
    (tail : stream_end) (parsed_lines : list record) : stmt (list record) :=
  match lines with
  | [] =>
      match tail with
      | Eof => (parsed_lines, Returned tt)
      | ReadError e => (parsed_lines, Raised e)
      end
  | line :: lines' =>
      if cap_truthy max_lines
         && match max_lines with Some k => (k <? line_number)%Z | None => false end
      then (parsed_lines, Returned tt)
      else
        let parsed_lines' :=
          match parse_line cfg current_year line file_path line_number with
          | Some parsed_line => parsed_lines ++ [parsed_line]
          | None => parsed_lines
          end in
        read_loop cfg current_year file_path max_lines (line_number + 1)
                  lines' tail parsed_lines'
  end.

Definition parse_file (cfg : config) (current_year : Z) (fs : filesystem)
    (file_path : string) (max_lines : option Z) : outcome (list record) :=
  let body : stmt (list record) :=
    match fs file_path with
    | Unopenable e => ([], Raised e)
    | Opened lines tail =>
        read_loop cfg current_year file_path max_lines 1 lines tail []
    end in
  match try_except body with
  | (parsed_lines, Returned _) => Returned parsed_lines
  | (_, Raised e) => Raised e
  end.

(** [parse_files_parallel].  [completion] is the order in which
    [as_completed] yields the futures, each named by the index of its path
    in [file_paths]; the constructor of the pool raises [ValueError] for a
    worker count that is not positive. *)
Definition parse_files_parallel (cfg : config) (current_year : Z)
    (fs : filesystem) (file_paths : list string) (max_workers : Z)
    (max_lines_per_file : option Z) (completion : list nat)
  : outcome (list record) :=
  if (max_workers <=? 0)%Z then Raised ValueError
  else
    Returned
      (fold_left
         (fun all_parsed_lines i =>
            match nth_error file_paths i with
            | Some file_path =>
                match parse_file cfg current_year fs file_path
                                 max_lines_per_file with
                | Returned parsed_lines => all_parsed_lines ++ parsed_lines
                | Raised _ => all_parsed_lines
                end
            | None => all_parsed_lines
            end)
         completion []).

End LogParser.

(** ** [DataAnalyzer] (src/data_analyzer.py) *)

Module DataAnalyzer.

(** *** Time *)

(** A pandas Timestamp: nanoseconds since the epoch. *)
Definition Timestamp : Type := Z.

Definition second_ns : Z := 1000000000%Z.
Definition minute_ns : Z := (60 * second_ns)%Z.
Definition hour_ns : Z := (60 * minute_ns)%Z.
Definition day_ns : Z := (24 * hour_ns)%Z.

(** [Series.dt.floor] to a positive width. *)
Definition floor_to (width : Z) (t : Timestamp) : Timestamp :=
  (t - t mod width)%Z.

Definition two_digits (n : Z) : string :=
  if (n <? 10)%Z then ("0" ++ PyStr.of_Z n)%string else PyStr.of_Z n.

(** [t.strftime('%H:%M')] and [t.strftime('%H:%M:%S')] *)
Definition strftime_HM (t : Timestamp) : string :=
  (two_digits ((t / hour_ns) mod 24)%Z ++ ":" ++
   two_digits ((t / minute_ns) mod 60)%Z)%string.

Definition strftime_HMS (t : Timestamp) : string :=
  (strftime_HM t ++ ":" ++ two_digits ((t / second_ns) mod 60)%Z)%string.

(** *** Frames *)

(** A cell of a [timestamp] column that has not been converted yet: a
    point in time, a missing value, or a text still to be parsed. *)
Inductive cell : Type :=
| Time (t : Timestamp)
| Missing
| Text (s : string).

(** A row of the frame built from the parsed lines; [T] is the type of the
    [timestamp] column ([cell] before conversion, [option Timestamp] for a
    datetime column, where [None] is [NaT]). *)
Record row (T : Type) : Type := Row {
  timestamp : T;
  log_level : option string;
  has_error : bool;
  error_categories : list string;
  file_path : string;
  transaction_id : option string;
  is_warning : bool;
  is_error_strict : bool
}.
Arguments Row {T}.
Arguments timestamp {T}.
Arguments log_level {T}.
Arguments has_error {T}.
Arguments error_categories {T}.
Arguments file_path {T}.
Arguments transaction_id {T}.
Arguments is_warning {T}.
Arguments is_error_strict {T}.

Definition frame (T : Type) : Type := list (row T).

Definition set_timestamp {T U : Type} (f : T -> U) (r : row T) : row U :=
  Row (f (timestamp r)) (log_level r) (has_error r) (error_categories r)
      (file_path r) (transaction_id r) (is_warning r) (is_error_strict r).

(** [df.empty] *)
Definition empty {A : Type} (df : list A) : bool :=
  match df with [] => true | _ => false end.

(** *** Grouping, counting and ranking *)

Definition omap {A B : Type} (f : A -> option B) (l : list A) : list B :=
  flat_map (fun a => match f a with Some b => [b] | None => [] end) l.

Fixpoint insert_key (k : Z) (l : list Z) : list Z :=
  match l with
  | [] => [k]
  | x :: t =>
      if (k <? x)%Z then k :: l
      else if (k =? x)%Z then l
      else x :: insert_key k t
  end.

(** The distinct keys of a [groupby], in ascending order. *)
Definition sorted_keys (l : list Z) : list Z := fold_right insert_key [] l.

Definition has_key {A : Type} (key : A -> option Z) (k : Z) (a : A) : bool :=
  match key a with Some k' => (k' =? k)%Z | None => false end.

(** [df.groupby(key)]: the groups in ascending key order; rows whose key
    is [NaT] belong to no group. *)
Definition groupby {A : Type} (key : A -> option Z) (rows : list A)
  : list (Z * list A) :=
  map (fun k => (k, filter (has_key key k) rows)) (sorted_keys (omap key rows)).

Section Ranking.
Context {A : Type} (count : A -> nat).

Fixpoint insert_desc (x : A) (l : list A) : list A :=
  match l with
  | [] => [x]
  | y :: t => if (count x <? count y)%nat then y :: insert_desc x t else x :: l
  end.

(** Stable sort by descending count: among equal counts the order of
    the input is kept. *)
Definition sort_desc (l : list A) : list A := fold_right insert_desc [] l.

(** [nlargest(n, count)] with [keep='first'], and [heapq.nlargest]. *)
Definition nlargest (n : nat) (l : list A) : list A := firstn n (sort_desc l).
End Ranking.

(** The distinct elements in order of first occurrence. *)
Fixpoint uniq (l : list string) : list string :=
  match l with
  | [] => []
  | x :: t => x :: remove string_dec x (uniq t)
  end.

(** [Counter(l).items()]: each distinct label with its number of
    occurrences, in order of first occurrence. *)
Definition Counter (l : list string) : list (string * nat) :=
  map (fun x => (x, count_occ string_dec l x)) (uniq l).

(** [Counter(l).most_common(n)] *)
Definition most_common (n : nat) (l : list string) : list (string * nat) :=
  nlargest snd n (Counter l).

(** [len(set(l))] *)
Definition nunique (l : list string) : nat := length (nodup string_dec l).

(** [Series.min()] and [Series.max()] of a datetime column: [NaT] values
    are skipped, and the result is [NaT] when nothing is left. *)
Definition series_min (l : list (option Timestamp)) : option Timestamp :=
  match omap (fun x => x) l with
  | [] => None
  | t :: ts => Some (fold_left Z.min ts t)
  end.

Definition series_max (l : list (option Timestamp)) : option Timestamp :=
  match omap (fun x => x) l with
  | [] => None
  | t :: ts => Some (fold_left Z.max ts t)
  end.

(** *** The analyzer *)

Record analyzer : Type := Analyzer {
  target_date : Timestamp;
  time_filter_enabled : bool;
  start_time : Timestamp;
  end_time : Timestamp
}.

(** [__init__] for a given [target_date]: the window is 09:00 to 14:00 of
    that day. *)
Definition init (target_date : Timestamp) (time_filter_enabled : bool)
  : analyzer :=
  let midnight := floor_to day_ns target_date in
  Analyzer target_date time_filter_enabled
           (midnight + 9 * hour_ns)%Z (midnight + 14 * hour_ns)%Z.

Section Conversion.
(** [pd.to_datetime] on a text; [None] when the text does not parse. *)
Variable parse_text : string -> option Timestamp.

(** [pd.to_datetime(column, errors='coerce')] on one cell. *)
Definition to_datetime (c : cell) : cell :=
  match c with
  | Time t => Time t
  | Missing => Missing
  | Text s =>
      match parse_text s with
      | Some t => Time t
      | None => Missing
      end
  end.

Definition notna (c : cell) : bool :=
  match c with Time _ => true | _ => false end.

(** [(ts >= start) & (ts <= end)]; a comparison with [NaT] is false. *)
Definition in_window (a : analyzer) (c : cell) : bool :=
  match c with
  | Time t => (start_time a <=? t)%Z && (t <=? end_time a)%Z
  | _ => false
  end.

Definition filter_by_timeframe (a : analyzer) (df : frame cell) : frame cell :=
  if empty df then df
  else
    let df := map (set_timestamp to_datetime) df in
    let df := filter (fun r => notna (timestamp r)) df in
    let mask := fun r => in_window a (timestamp r) in
    filter mask df.

End Conversion.

(** *** Peak periods *)

(** One row of the aggregated frame [error_counts]. *)
Record agg : Type := Agg {
  time_bin : Timestamp;
  agg_error_count : nat;
  agg_error_categories : list string;
  agg_file_path : list string;
  agg_transaction_id : list string
}.

(** One entry of [peak_periods]. *)
Record peak_period : Type := PeakPeriod {
  time_period : string;
  peak_start_time : Timestamp;
  error_count : nat;
  top_error_categories : list (string * nat);
  affected_files : nat;
  unique_transactions : nat
}.

Definition errors_of (df : frame (option Timestamp)) : frame (option Timestamp) :=
  filter (fun r => has_error r) df.

Definition aggregate (g : Z * frame (option Timestamp)) : agg :=
  let '(k, x) := g in
  Agg k (length x)
      (flat_map error_categories x)
      (nodup string_dec (map file_path x))
      (nodup string_dec (omap transaction_id x)).

Definition peak_of (window_minutes : Z) (data : agg) : peak_period :=
  PeakPeriod
    (strftime_HM (time_bin data) ++ " - " ++
     strftime_HM (time_bin data + window_minutes * minute_ns)%Z)%string
    (time_bin data)
    (agg_error_count data)
    (most_common 3 (agg_error_categories data))
    (length (agg_file_path data))
    (length (filter PyStr.truthy (agg_transaction_id data))).

Definition identify_peak_periods (df : frame (option Timestamp))
    (window_minutes : Z) : list peak_period :=
  if empty df then []
  else
    let key := fun r : row (option Timestamp) =>
      option_map (floor_to (window_minutes * minute_ns)%Z) (timestamp r) in
    let error_counts := map aggregate (groupby key (errors_of df)) in
    if empty error_counts then []
    else
      let top_periods := nlargest agg_error_count 5 error_counts in
      map (peak_of window_minutes) top_periods.

(** *** Error patterns *)

Inductive pattern : Type :=
| cascading_failure (transaction_id : string) (error_count : nat)
                    (time_span : string) (categories : list string)
| error_burst (time : Timestamp) (error_count : nat) (description : string).

(** The part of the result of [analyze_error_patterns] that the counts
    and the pattern list make up. *)
Record analysis : Type := Analysis {
  total_errors : nat;
  patterns : list pattern;
  total_warnings : nat;
  total_errors_strict : nat
}.

Definition has_tid (txn_id : string) (r : row (option Timestamp)) : bool :=
  match transaction_id r with
  | Some t => String.eqb t txn_id
  | None => false
  end.

Definition minute_key (r : row (option Timestamp)) : option Z :=
  option_map (floor_to minute_ns) (timestamp r).

Definition burst_description (count : nat) (minute : Timestamp) : string :=
  (PyStr.of_Z (Z.of_nat count) ++ " errors in 1 minute starting at " ++
   strftime_HMS minute)%string.

Definition count_true {A : Type} (f : A -> bool) (l : list A) : nat :=
  length (filter f l).

Section Patterns.
(** [str(t)] for a Timestamp or [NaT]. *)
Variable timestamp_str : option Timestamp -> string.

(** The order in which [sort_values(ascending=False)] leaves the counts
    of [value_counts]: descending, with no promise among equal counts. *)
Variable sort_values : list (string * nat) -> list (string * nat).

(** [list(set(l))]: the distinct elements in the set's own order. *)
Variable list_set : list string -> list string.

(** [Series.value_counts()] *)
Definition value_counts (l : list string) : list (string * nat) :=
  sort_values (Counter l).

Definition cascades (error_df : frame (option Timestamp)) : list pattern :=
  let transaction_errors :=
    filter (fun r => match transaction_id r with Some _ => true | None => false end)
           error_df in
  let transaction_counts :=
    firstn 10 (value_counts (omap transaction_id transaction_errors)) in
  flat_map
    (fun '(txn_id, count) =>
       if (1 <? count)%nat then
         let txn_errors := filter (has_tid txn_id) transaction_errors in
         [cascading_failure txn_id count
            (timestamp_str (series_min (map timestamp txn_errors)) ++ " to " ++
             timestamp_str (series_max (map timestamp txn_errors)))%string
            (list_set (flat_map error_categories txn_errors))]
       else [])
    transaction_counts.

Definition bursts (error_df : frame (option Timestamp)) : list pattern :=
  let minute_counts :=
    map (fun '(minute, g) => (minute, length g)) (groupby minute_key error_df) in
  map (fun '(minute, count) =>
         error_burst minute count (burst_description count minute))
      (filter (fun '(_, count) => (5 <? count)%nat) minute_counts).

Definition analyze_error_patterns (df : frame (option Timestamp)) : analysis :=
  if empty df then Analysis 0 [] 0 0
  else
    let error_df := errors_of df in
    Analysis (length error_df)
             (cascades error_df ++ bursts error_df)
             (count_true is_warning df)
             (count_true is_error_strict df).
End Patterns.

End DataAnalyzer.

(** ** Reference definitions for the statements *)

Module ParserSpec.
Import LogParser.

(** The records of a list of lines numbered from [n], in order: one per
    line that is not blank. *)
Fixpoint parse_lines_from (cfg : config) (current_year : Z) (file_path : string)
    (n : Z) (lines : list string) : list record :=
  match lines with
  | [] => []
  | line :: lines' =>
      match parse_line cfg current_year line file_path n with
      | Some r => r :: parse_lines_from cfg current_year file_path (n + 1) lines'
      | None => parse_lines_from cfg current_year file_path (n + 1) lines'
      end
  end.

(** How many of the lines a cap lets through: all of them when the cap
    is unset or zero, the first [k] for a cap [k] otherwise (none when [k]
    is negative). *)
Definition cap_lines (max_lines : option Z) (lines : list string) : nat :=
  match max_lines with
  | Some k => if (k =? 0)%Z then length lines else Z.to_nat k
  | None => length lines
  end.

(** The lines that can be read from a file: none when it cannot be
    opened, otherwise those that the iteration yields before it ends or
    fails. *)
Definition lines_read (f : file) : list string :=
  match f with
  | Unopenable _ => []
  | Opened lines _ => lines
  end.

(** The records that the lines read from a file give, as many as the cap
    lets through. *)
Definition records_read (cfg : config) (current_year : Z) (f : file)
    (file_path : string) (max_lines : option Z) : list record :=
  parse_lines_from cfg current_year file_path 1
                   (firstn (cap_lines max_lines (lines_read f)) (lines_read f)).

(** The records of an outcome; an exception has none. *)
Definition records_of (o : outcome (list record)) : list record :=
  match o with Returned l => l | Raised _ => [] end.

Definition record_count (cfg : config) (current_year : Z) (fs : filesystem)
    (file_path : string) (max_lines : option Z) : nat :=
  length (records_of (parse_file cfg current_year fs file_path max_lines)).

(** What the future of index [i] adds to the merged list. *)
Definition contribution (cfg : config) (y : Z) (fs : filesystem)
    (paths : list string) (cap : option Z) (i : nat) : list record :=
  match nth_error paths i with
  | Some path => records_read cfg y (fs path) path cap
  | None => []
  end.

(** Sample inputs. *)
Definition scenario_B : string :=
  "[01/Oct/2023:14:35:22 +0000] WARN Cannot connect to database".

Definition prefixed_line : string :=
  "host1 2023-10-01 14:30:45 ERROR disk full".

Definition default_config : config := Config false.

(** A file whose second read fails, a file of three lines of which one
    is blank, and no other file. *)
Definition failing_fs : filesystem :=
  fun path =>
    if String.eqb path "broken.log"
    then Opened ["2023-10-01 14:30:45 ERROR disk full"] (ReadError OSError)
    else if String.eqb path "good.log"
    then Opened ["2023-10-01 14:30:46 INFO started"; "";
                 "2023-10-01 14:30:47 WARN slow"] Eof
    else Unopenable OSError.

End ParserSpec.

Module AnalyzerSpec.
Import DataAnalyzer.

Definition dframe : Type := frame (option Timestamp).

(** Orders on ranked items: by descending count, and by descending count
    with the earlier start first among equal counts. *)
Definition count_ge {A : Type} (count : A -> nat) (a b : A) : Prop :=
  (count b <= count a)%nat.


(** The window filter in the words of the specification: a record is
    kept when its timestamp is present, parses, and lies in the closed
    window; the kept record carries the parsed point in time. *)
Definition usable_time (parse_text : string -> option Timestamp) (c : cell)
  : option Timestamp :=
  match c with
  | Time t => Some t
  | Missing => None
  | Text s => parse_text s
  end.

Definition window_filter_spec (parse_text : string -> option Timestamp)
    (a : analyzer) (df : frame cell) : frame cell :=
  flat_map
    (fun r =>
       match usable_time parse_text (timestamp r) with
       | Some t =>
           if ((start_time a <=? t) && (t <=? end_time a))%Z
           then [set_timestamp (fun _ => Time t) r] else []
       | None => []
       end) df.

(** The key of the 5-minute bucket of a row. *)
Definition peak_key (r : row (option Timestamp)) : option Z :=
  option_map (floor_to (5 * minute_ns)%Z) (timestamp r).

(** The error records of the 5-minute bucket that starts at [start]. *)
Definition peak_bucket (df : dframe) (start : Timestamp) : dframe :=
  filter (fun r => has_error r && has_key peak_key start r) df.

(** The keys of the 5-minute buckets that hold an error record. *)
Definition peak_keys (df : dframe) : list Z :=
  sorted_keys (omap peak_key (errors_of df)).


(** The entry that describes the bucket starting at [start]: label, error
    count, the three most frequent labels, distinct files, and distinct
    transaction ids that are neither absent nor empty. *)
Definition peak_entry (df : dframe) (start : Timestamp) : peak_period :=
  let rs := peak_bucket df start in
  PeakPeriod
    (strftime_HM start ++ " - " ++ strftime_HM (start + 5 * minute_ns)%Z)%string
    start
    (length rs)
    (most_common 3 (flat_map error_categories rs))
    (nunique (map file_path rs))
    (nunique (filter PyStr.truthy (omap transaction_id rs))).









(** Sample rows and frames. *)
Definition at_second (s : Z) (tid : option string) : row (option Timestamp) :=
  Row (Some (s * second_ns)%Z) (Some "ERROR") true ["timeout_errors"]
      "app.log" tid false true.

Definition five_in_a_minute : dframe :=
  map (fun s => at_second s None) [120; 125; 130; 140; 179]%Z.

Definition six_in_a_minute : dframe :=
  map (fun s => at_second s None) [120; 125; 130; 140; 150; 179]%Z.


Definition cascade_frame : dframe :=
  [at_second 0 (Some "TXN9"); at_second 300 (Some "TXN9");
   at_second 600 (Some "TXN9"); at_second 700 (Some "TXN1")].

(** Instances of the library functions left open above. *)
Definition plain_timestamp_str (t : option Timestamp) : string :=
  match t with
  | Some z => PyStr.of_Z z
  | None => "NaT"
  end.

Definition stable_sort_values (l : list (string * nat)) : list (string * nat) :=
  sort_desc snd l.

Definition first_seen_list_set (l : list string) : list string := uniq l.

Definition text_as_seconds (s : string) : option Timestamp :=
  if String.eqb s "noon" then Some (12 * hour_ns)%Z else None.

Definition window_frame : frame cell :=
  [Row (Time (10 * hour_ns)%Z) None false [] "a.log" None false false;
   Row Missing None false [] "a.log" None false false;
   Row (Text "noon") None false [] "b.log" None false false;
   Row (Text "garbled") None false [] "b.log" None false false;
   Row (Time (15 * hour_ns)%Z) None false [] "b.log" None false false].

End AnalyzerSpec.

(** ** [LogFileScanner] (src/file_scanner.py) *)

Module LogFileScanner.

(** The metadata dict that [scan_directory] builds for one file; times are
    seconds since the epoch. *)
Record file_metadata : Type := FileMetadata {
  file_path : string;
  file_name : string;
  file_size : Z;
  modified_time : Z;
  created_time : Z;
  relative_path : string;
  extension : string;
  directory : string
}.

(** The [for] loop of [filter_by_size]; the state is [filtered]. *)
Fixpoint filter_by_size_loop (file_list : list file_metadata) (min_size : Z)
    (max_size : option Z) (filtered : list file_metadata) : list file_metadata :=
  match file_list with
  | [] => filtered
  | file_info :: file_list' =>
      let size := file_size file_info in
      if (min_size <=? size)%Z
         && match max_size with
            | None => true
            | Some m => (size <=? m)%Z
            end
      then filter_by_size_loop file_list' min_size max_size (filtered ++ [file_info])
      else filter_by_size_loop file_list' min_size max_size filtered
  end.

Definition filter_by_size (file_list : list file_metadata) (min_size : Z)
    (max_size : option Z) : list file_metadata :=
  filter_by_size_loop file_list min_size max_size [].

(** The [for] loop of [filter_by_modified_date]; a date that is given is
    true as a condition. *)
Fixpoint filter_by_modified_date_loop (file_list : list file_metadata)
    (start_date end_date : option Z) (filtered : list file_metadata)
  : list file_metadata :=
  match file_list with
  | [] => filtered
  | file_info :: file_list' =>
      let mod_time := modified_time file_info in
      let include_file := true in
      let include_file :=
        match start_date with
        | Some s => if (mod_time <? s)%Z then false else include_file
        | None => include_file
        end in
      let include_file :=
        match end_date with
        | Some e => if (e <? mod_time)%Z then false else include_file
        | None => include_file
        end in
      if include_file
      then filter_by_modified_date_loop file_list' start_date end_date
                                        (filtered ++ [file_info])
      else filter_by_modified_date_loop file_list' start_date end_date filtered
  end.

Definition filter_by_modified_date (file_list : list file_metadata)
    (start_date end_date : option Z) : list file_metadata :=
  match start_date, end_date with
  | None, None => file_list
  | _, _ => filter_by_modified_date_loop file_list start_date end_date []
  end.

(** [extensions[ext] = extensions.get(ext, 0) + 1] on a dict in insertion
    order. *)
Fixpoint bump (ext : string) (extensions : list (string * nat))
  : list (string * nat) :=
  match extensions with
  | [] => [(ext, 1%nat)]
  | (k, v) :: t =>
      if String.eqb k ext then (k, S v) :: t else (k, v) :: bump ext t
  end.

(** [min(l, key=modified_time)] and [max(l, key=modified_time)] from a
    first candidate: the first of the least (greatest) is returned. *)
Fixpoint min_by_modified (best : file_metadata) (l : list file_metadata)
  : file_metadata :=
  match l with
  | [] => best
  | f :: t =>
      if (modified_time f <? modified_time best)%Z
      then min_by_modified f t else min_by_modified best t
  end.

Fixpoint max_by_modified (best : file_metadata) (l : list file_metadata)
  : file_metadata :=
  match l with
  | [] => best
  | f :: t =>
      if (modified_time best <? modified_time f)%Z
      then max_by_modified f t else max_by_modified best t
  end.

(** The dict returned by [get_file_summary], without [total_size_mb] (a
    rounded float); [oldest_file] and [newest_file] are absent for an empty
    list. *)
Record file_summary : Type := FileSummary {
  total_files : nat;
  total_size : Z;
  extensions : list (string * nat);
  oldest_file : option (string * Z);
  newest_file : option (string * Z)
}.

Definition get_file_summary (file_list : list file_metadata) : file_summary :=
  match file_list with
  | [] => FileSummary 0 0 [] None None
  | first :: others =>
      let total_size := fold_left (fun acc f => (acc + file_size f)%Z) file_list 0%Z in
      let extensions := fold_left (fun d f => bump (extension f) d) file_list [] in
      let oldest_file := min_by_modified first others in
      let newest_file := max_by_modified first others in
      FileSummary (length file_list) total_size extensions
                  (Some (file_path oldest_file, modified_time oldest_file))
                  (Some (file_path newest_file, modified_time newest_file))
  end.

(** A file is inside a size range, and inside a date range. *)
Definition size_in_range (min_size : Z) (max_size : option Z)
    (f : file_metadata) : bool :=
  (min_size <=? file_size f)%Z
  && match max_size with None => true | Some m => (file_size f <=? m)%Z end.

Definition modified_in_range (start_date end_date : option Z)
    (f : file_metadata) : bool :=
  match start_date with None => true | Some s => (s <=? modified_time f)%Z end
  && match end_date with None => true | Some e => (modified_time f <=? e)%Z end.

(** The sum of the counts of a dict of counts, and the sizes of a list
    of files added up. *)
Definition count_sum (d : list (string * nat)) : nat :=
  fold_right (fun kv acc => (snd kv + acc)%nat) 0%nat d.

Definition size_sum (l : list file_metadata) : Z :=
  fold_right (fun f acc => (file_size f + acc)%Z) 0%Z l.

Definition with_extension (ext : string) (f : file_metadata) : bool :=
  String.eqb (extension f) ext.

(** [d.get(k, 0)] *)
Fixpoint get_count (k : string) (d : list (string * nat)) : nat :=
  match d with
  | [] => 0%nat
  | (k0, v) :: t => if String.eqb k0 k then v else get_count k t
  end.

(** Sample files. *)
Definition sample_file (name ext : string) (size mtime : Z) : file_metadata :=
  FileMetadata ("/logs/" ++ name)%string name size mtime mtime name ext "/logs".

Definition sample_files : list file_metadata :=
  [sample_file "a.log" ".log" 100 50; sample_file "b.txt" ".txt" 3000 20;
   sample_file "c.log" ".log" 0 20; sample_file "d.log" ".log" 500 90].

End LogFileScanner.

(** ** More reference definitions for the parser *)

Module ParserMoreSpec.
Import LogParser.

(** The names of the categories in the order of [error_patterns]. *)
Definition category_names : list string := map fst error_patterns.

Definition mem (x : string) (l : list string) : bool :=
  existsb (String.eqb x) l.

(** A record with its [has_error] entry replaced. *)
Definition with_has_error (b : bool) (r : record) : record :=
  Record_ (timestamp r) (log_level r) (message r) (original_line r)
          (error_categories r) (transaction_id r) (file_path r)
          (line_number r) (is_warning r) (is_error_strict r) b.

(** All characters of a text are white space. *)
Fixpoint all_space (s : string) : bool :=
  match s with
  | EmptyString => true
  | String c t => PyStr.is_space c && all_space t
  end.

End ParserMoreSpec.

(** ** What a match of a regular expression is *)

Module RegexSpec.
Import Re.

(** [steps r st st']: the expression [r] can take the matcher from the
    position [st] to the position [st'] (one path of the backtracking
    search). *)
Inductive steps : regex -> mstate -> mstate -> Prop :=
| steps_eps st : steps Eps st st
| steps_cls p c t st :
    rest st = String c t -> p c = true -> steps (Cls p) st (advance c t st)
| steps_cat a b st st1 st2 :
    steps a st st1 -> steps b st1 st2 -> steps (Cat a b) st st2
| steps_alt_l a b st st' : steps a st st' -> steps (Alt a b) st st'
| steps_alt_r a b st st' : steps b st st' -> steps (Alt a b) st st'
| steps_opt_some a st st' : steps a st st' -> steps (Opt a) st st'
| steps_opt_none a st : steps (Opt a) st st
| steps_star_stop a st : steps (Star a) st st
| steps_star_more a st st1 st2 :
    steps a st st1 -> steps (Star a) st1 st2 -> steps (Star a) st st2
| steps_grp g a st st' :
    steps a st st' -> steps (Grp g a) st (set_cap g (pos st) (pos st') st')
| steps_wordb st : at_boundary st = true -> steps WordB st st.

(** The position [st] lies in the subject [line]. *)
Definition anchored (line : string) (st : mstate) : Prop :=
  rest st = PyStr.drop (pos st) line.


(** [[a-zA-Z0-9\-_]] *)
Definition id_char (c : ascii) : bool :=
  PyStr.is_alpha c || PyStr.is_digit c || Ascii.eqb c "-" || Ascii.eqb c "_".

Fixpoint all_chars (p : ascii -> bool) (s : string) : bool :=
  match s with
  | EmptyString => true
  | String c t => p c && all_chars p t
  end.

End RegexSpec.

(** ** More reference definitions for the analyzer *)

Module AnalyzerMoreSpec.
Import DataAnalyzer AnalyzerSpec.





(** The error count that an entry of a pattern list reports. *)
Definition pattern_count (p : pattern) : nat :=
  match p with
  | cascading_failure _ c _ _ => c
  | error_burst _ c _ => c
  end.

(** The timestamp is present and lies in the half-open interval from
    [lo] to [hi]. *)
Definition in_interval (lo hi : Timestamp) (t : option Timestamp) : bool :=
  match t with
  | Some z => (lo <=? z)%Z && (z <? hi)%Z
  | None => false
  end.

(** A datetime column seen as cells, and back. *)
Definition as_cells (df : dframe) : frame cell :=
  map (set_timestamp (fun t => match t with Some z => Time z | None => Missing end)) df.

Definition as_times (df : frame cell) : dframe :=
  map (set_timestamp (fun c => match c with Time z => Some z | _ => None end)) df.

End AnalyzerMoreSpec.

(** ** The timeline *)

Module Timeline.
Import DataAnalyzer.

(** One row of the frame that [generate_timeline] returns. *)
Record timeline_row : Type := TimelineRow {
  time_bin : Timestamp;
  total_logs : nat;
  total_errors : nat;
  level_distribution : list (string * nat);
  error_categories : list string;
  category_counts : list (string * nat)
}.

(** [df['timestamp'].dt.floor(f'{interval_minutes}T')] for one row. *)
Definition bin_key (interval_minutes : Z) (r : row (option Timestamp)) : option Z :=
  option_map (floor_to (interval_minutes * minute_ns)%Z) (timestamp r).

Section Frames.
Variable sort_values : list (string * nat) -> list (string * nat).

(** The aggregation of one group: [count] and [sum] of [has_error], the
    counted levels, the flattened category lists and their counts. *)
Definition timeline_of (g : Z * frame (option Timestamp)) : timeline_row :=
  let '(k, x) := g in
  let cats :=
    flat_map (fun sublist => filter (fun _ => negb (empty sublist)) sublist)
             (map DataAnalyzer.error_categories x) in
  TimelineRow k (length x) (count_true has_error x)
              (value_counts sort_values (omap log_level x))
              cats
              (if empty cats then [] else Counter cats).

Definition generate_timeline (df : frame (option Timestamp))
    (interval_minutes : Z) : list timeline_row :=
  if empty df then []
  else map timeline_of (groupby (bin_key interval_minutes) df).

End Frames.
End Timeline.

(** ** From the parsed lines to the frame *)

Module ToDataFrame.
Import DataAnalyzer.

Section Columns.
(** [pd.to_datetime] on a [datetime] object; [None] is [NaT]. *)
Variable to_timestamp : datetime -> option Timestamp.
Variable list_set : list string -> list string.




End Columns.
End ToDataFrame.

(** ** Reference definitions for the pipeline *)

Module PipelineSpec.
Import DataAnalyzer AnalyzerSpec AnalyzerMoreSpec.

(** The row has a timestamp. *)
Definition has_time (r : row (option Timestamp)) : bool :=
  match timestamp r with Some _ => true | None => false end.

(** The frame that [filter_by_timeframe] leaves of a frame with a
    datetime column. *)
Definition windowed (parse_text : string -> option Timestamp) (a : analyzer)
    (df : dframe) : dframe :=
  as_times (filter_by_timeframe parse_text a (as_cells df)).


End PipelineSpec.

(** ** Properties of the parser *)

Module ParserProps.
Import LogParser ParserSpec.

(** *** Lines *)

Lemma strip_nonempty_truthy (s : string) :
  PyStr.strip s <> EmptyString -> PyStr.truthy (PyStr.strip s) = true.
Proof.
  destruct (PyStr.strip s); [congruence | reflexivity].
Qed.

Lemma parse_line_blank cfg y line path n :
  PyStr.strip line = EmptyString -> parse_line cfg y line path n = None.
Proof.
  intros H. unfold parse_line. rewrite H. reflexivity.
Qed.

(** The record of a line that is not blank, field by field. *)
Lemma parse_line_fields cfg y line path n :
  PyStr.strip line <> EmptyString ->
  exists r,
    parse_line cfg y line path n = Some r /\
    original_line r = PyStr.strip line /\
    timestamp r = fst (detect_timestamp y (PyStr.strip line)) /\
    error_categories r = classify_error (PyStr.strip line) /\
    transaction_id r = extract_transaction_id (PyStr.strip line) /\
    file_path r = path /\ line_number r = n /\
    has_error r = is_error_strict r || (is_warning r && treat_warnings_as_errors cfg).
Proof.
  intros H. unfold parse_line.
  rewrite (strip_nonempty_truthy _ H). cbn [negb].
  destruct (detect_timestamp y (PyStr.strip line)) as [ts after_ts] eqn:Ets.
  destruct (extract_log_level after_ts) as [lvl after_lvl] eqn:Elv.
  eexists. split; [reflexivity |]. cbn. repeat split; reflexivity.
Qed.

(** C2: every line that is not blank gives a record, under every
    configuration; its category labels are a list (the one that
    [classify_error] computes, possibly empty), and when [has_error] is set,
    either [is_error_strict] is set or [is_warning] is set and warnings
    count as errors. *)
Theorem parse_line_error_flags cfg y line path n :
  PyStr.strip line <> EmptyString ->
  exists r,
    parse_line cfg y line path n = Some r /\
    error_categories r = classify_error (PyStr.strip line) /\
    (has_error r = true ->
     is_error_strict r = true \/
     (is_warning r = true /\ treat_warnings_as_errors cfg = true)).
Proof.
  intros H.
  destruct (parse_line_fields cfg y line path n H)
    as (r & Hr & _ & _ & Hcat & _ & _ & _ & Herr).
  exists r. split; [exact Hr |]. split; [exact Hcat |].
  rewrite Herr. intros E.
  apply orb_true_iff in E. destruct E as [E | E].
  - left; exact E.
  - right. apply andb_true_iff in E. exact E.
Qed.

Lemma parse_line_error_flags_witness :
  PyStr.strip "  WARN disk almost full  " <> EmptyString /\
  exists r,
    parse_line (Config true) 2026 "  WARN disk almost full  " "app.log" 7 = Some r /\
    error_categories r = classify_error (PyStr.strip "  WARN disk almost full  ") /\
    (has_error r = true ->
     is_error_strict r = true \/
     (is_warning r = true /\ treat_warnings_as_errors (Config true) = true)).
Proof.
  assert (H : PyStr.strip "  WARN disk almost full  " <> EmptyString)
    by (vm_compute; discriminate).
  split; [exact H |].
  exact (parse_line_error_flags (Config true) 2026 "  WARN disk almost full  "
                                "app.log" 7 H).
Defined.

(** *** Timestamps *)

(** C1: on the line of scenario B the parser finds the level [WARN], the
    category [database_errors], [is_warning] and [is_error_strict]; of the
    matched text [01/Oct/2023:14:35:22 +0000] only the first 19 characters
    reach [strptime], so the seconds are read from the single digit [2] and
    the timestamp is 14:35:02, not 14:35:22. *)
Theorem scenario_B_record cfg y path n :
  exists r,
    parse_line cfg y scenario_B path n = Some r /\
    timestamp r = Some (DateTime 2023 10 1 14 35 2 0) /\
    timestamp r <> Some (DateTime 2023 10 1 14 35 22 0) /\
    log_level r = Some "WARN" /\
    error_categories r = ["database_errors"] /\
    is_warning r = true /\
    is_error_strict r = true.
Proof.
  destruct cfg as [w]. eexists. split.
  - vm_compute. reflexivity.
  - cbn. repeat split; try reflexivity. discriminate.
Qed.

(** What reaches [strptime] for the matched text of scenario B. *)
Lemma scenario_B_truncated :
  PyStr.take 19 "01/Oct/2023:14:35:22 +0000" = "01/Oct/2023:14:35:2".
Proof. reflexivity. Qed.

(** The same cut on a syslog line with a two-digit day: with the year put
    in front the text has 20 characters, and 14:40:15 is read as 14:40:01. *)
Example syslog_seconds_truncated :
  detect_timestamp 2026 "Oct 01 14:40:15 CRITICAL HTTP/1.1 500 Internal Server Error"
  = (Some (DateTime 2026 10 1 14 40 1 0),
     "CRITICAL HTTP/1.1 500 Internal Server Error").
Proof. vm_compute. reflexivity. Qed.

(** An ISO timestamp has 19 characters and is read whole. *)
Example iso_timestamp_whole :
  detect_timestamp 2026 "2023-10-01T15:15:30.123Z INFO User login successful"
  = (Some (DateTime 2023 10 1 15 15 30 0), "INFO User login successful").
Proof. vm_compute. reflexivity. Qed.

(** When no matcher gives a timestamp the line is returned unchanged. *)
Lemma detect_timestamp_in_none pats y line :
  fst (detect_timestamp_in pats y line) = None ->
  snd (detect_timestamp_in pats y line) = line.
Proof.
  induction pats as [| [p f] pats IH]; cbn; intros H.
  - reflexivity.
  - destruct (Re.search p line) as [m |]; [| auto].
    destruct (parse_matched y (group1 line m) f); [discriminate | auto].
Qed.

Lemma detect_timestamp_none y line :
  fst (detect_timestamp y line) = None ->
  detect_timestamp y line = (None, line).
Proof.
  intros H. pose proof (detect_timestamp_in_none timestamp_patterns y line H) as H'.
  unfold detect_timestamp in *.
  destruct (detect_timestamp_in timestamp_patterns y line) as [a b].
  cbn in *. congruence.
Qed.

(** When a matcher gives a timestamp the residual is the text after the
    end of its match, stripped: the text before the match is not kept. *)
Lemma detect_timestamp_in_some pats y line ts residual :
  detect_timestamp_in pats y line = (Some ts, residual) ->
  exists p f m,
    In (p, f) pats /\ Re.search p line = Some m /\
    parse_matched y (group1 line m) f = Some ts /\
    residual = PyStr.strip (PyStr.drop (Re.m_end m) line).
Proof.
  induction pats as [| [p f] pats IH]; cbn; intros H.
  - discriminate.
  - destruct (Re.search p line) as [m |] eqn:Em.
    + destruct (parse_matched y (group1 line m) f) as [t |] eqn:Et.
      * inversion H; subst. exists p, f, m. auto.
      * destruct (IH H) as (p' & f' & m' & Hin & Hrest).
        exists p', f', m'. auto.
    + destruct (IH H) as (p' & f' & m' & Hin & Hrest).
      exists p', f', m'. auto.
Qed.

(** C8: on a line whose timestamp is not at its start, the residual
    that [detect_timestamp] returns has lost the text before the timestamp
    ([host1]): the first pattern matches the characters 6 to 25, the
    residual is the text after character 25, and cutting out the matched
    span alone would leave [host1  ERROR disk full]. *)
Theorem detect_timestamp_drops_prefix y :
  detect_timestamp y prefixed_line
  = (Some (DateTime 2023 10 1 14 30 45 0), "ERROR disk full") /\
  (exists m,
     Re.search (fst (hd (Re.Eps, EmptyString) timestamp_patterns)) prefixed_line
     = Some m /\
     Re.m_start m = 6%nat /\ Re.m_end m = 25%nat /\
     group1 prefixed_line m = "2023-10-01 14:30:45") /\
  PyStr.strip (PyStr.take 6 prefixed_line ++ PyStr.drop 25 prefixed_line)%string
  = "host1  ERROR disk full" /\
  snd (detect_timestamp y prefixed_line) <> "host1  ERROR disk full".
Proof.
  assert (E : detect_timestamp y prefixed_line
              = (Some (DateTime 2023 10 1 14 30 45 0), "ERROR disk full"))
    by (vm_compute; reflexivity).
  split; [exact E |]. split; [| split].
  - eexists. split; [vm_compute; reflexivity |]. repeat split.
  - vm_compute. reflexivity.
  - rewrite E. cbn. discriminate.
Qed.

(** *** Files *)

Lemma read_loop_uncapped cfg y path cap n lines tail acc :
  cap_truthy cap = false ->
  fst (read_loop cfg y path cap n lines tail acc)
  = acc ++ parse_lines_from cfg y path n lines.
Proof.
  intros Hcap. revert n acc.
  induction lines as [| line lines IH]; intros n acc; cbn.
  - destruct tail; cbn; now rewrite app_nil_r.
  - rewrite Hcap. cbn. rewrite IH.
    destruct (parse_line cfg y line path n); [| reflexivity].
    now rewrite <- app_assoc.
Qed.

Lemma read_loop_capped cfg y path k n lines tail acc :
  k <> 0%Z ->
  fst (read_loop cfg y path (Some k) n lines tail acc)
  = acc ++ parse_lines_from cfg y path n (firstn (Z.to_nat (k - n + 1)) lines).
Proof.
  intros Hk. revert n acc.
  induction lines as [| line lines IH]; intros n acc.
  - cbn. rewrite firstn_nil. destruct tail; cbn; now rewrite app_nil_r.
  - cbn [read_loop cap_truthy].
    destruct (Z.eqb_spec k 0) as [|_]; [contradiction |]. cbn [negb andb].
    destruct (Z.ltb_spec k n) as [Hlt | Hge].
    + replace (Z.to_nat (k - n + 1)) with 0%nat by lia.
      cbn. now rewrite app_nil_r.
    + replace (Z.to_nat (k - n + 1)) with (S (Z.to_nat (k - (n + 1) + 1))) by lia.
      rewrite IH. cbn [firstn parse_lines_from].
      destruct (parse_line cfg y line path n); [| reflexivity].
      now rewrite <- app_assoc.
Qed.

Lemma read_loop_records cfg y path cap lines tail :
  fst (read_loop cfg y path cap 1 lines tail [])
  = parse_lines_from cfg y path 1 (firstn (cap_lines cap lines) lines).
Proof.
  destruct cap as [k |].
  - unfold cap_lines. destruct (Z.eqb_spec k 0) as [-> | Hk].
    + rewrite read_loop_uncapped by reflexivity. now rewrite firstn_all.
    + rewrite read_loop_capped by assumption.
      now replace (k - 1 + 1)%Z with k by lia.
  - rewrite read_loop_uncapped by reflexivity. cbn. now rewrite firstn_all.
Qed.

(** [parse_file] always returns, with the records of the lines read. *)
Lemma parse_file_returns cfg y fs path cap :
  parse_file cfg y fs path cap
  = Returned (records_read cfg y (fs path) path cap).
Proof.
  unfold parse_file, records_read.
  destruct (fs path) as [e | lines tail].
  { cbn. now rewrite firstn_nil. }
  cbn [lines_read].
  rewrite <- read_loop_records with (tail := tail).
  destruct (read_loop cfg y path cap 1 lines tail []) as [parsed [u | e]];
    reflexivity.
Qed.

Lemma flat_map_by_index {A B : Type} (g : option A -> list B) (l : list A) :
  flat_map (fun i => g (nth_error l i)) (seq 0 (length l))
  = flat_map (fun a => g (Some a)) l.
Proof.
  induction l as [| a l IH]; [reflexivity |].
  cbn [length seq flat_map nth_error]. f_equal.
  rewrite <- seq_shift, flat_map_concat_map, map_map, <- flat_map_concat_map.
  exact IH.
Qed.

Lemma merge_loop cfg y fs paths cap completion acc :
  fold_left
    (fun all_parsed_lines i =>
       match nth_error paths i with
       | Some file_path =>
           match parse_file cfg y fs file_path cap with
           | Returned parsed_lines => all_parsed_lines ++ parsed_lines
           | Raised _ => all_parsed_lines
           end
       | None => all_parsed_lines
       end) completion acc
  = acc ++ flat_map (contribution cfg y fs paths cap) completion.
Proof.
  revert acc. induction completion as [| i completion IH]; intros acc; cbn.
  - now rewrite app_nil_r.
  - rewrite IH. unfold contribution at 2.
    destruct (nth_error paths i) as [path |].
    + rewrite parse_file_returns. now rewrite app_assoc.
    + cbn. reflexivity.
Qed.

Lemma parse_files_parallel_merge cfg y fs paths workers cap completion :
  (0 < workers)%Z ->
  parse_files_parallel cfg y fs paths workers cap completion
  = Returned (flat_map (contribution cfg y fs paths cap) completion).
Proof.
  intros Hw. unfold parse_files_parallel.
  destruct (Z.leb_spec workers 0) as [Hle | _]; [lia |].
  now rewrite merge_loop.
Qed.

Lemma contributions_in_order cfg y fs paths cap :
  flat_map (contribution cfg y fs paths cap) (seq 0 (length paths))
  = flat_map (fun path => records_read cfg y (fs path) path cap) paths.
Proof.
  unfold contribution.
  exact (flat_map_by_index
           (fun o => match o with
                     | Some path => records_read cfg y (fs path) path cap
                     | None => []
                     end) paths).
Qed.

(** C3 (amended): [parse_file] never raises.  A file that cannot be
    opened gives no record; a file whose reading fails gives the records
    of the lines read before the failure, as many as the cap allows.  With
    a positive worker count, [parse_files_parallel] returns, whatever the
    order of completion, the records of every submitted file together, a
    failing file taking nothing away from the others. *)
Theorem file_failures_are_isolated cfg y fs paths workers cap completion :
  (0 < workers)%Z ->
  Permutation completion (seq 0 (length paths)) ->
  (forall path, parse_file cfg y fs path cap
                = Returned (records_read cfg y (fs path) path cap)) /\
  (forall path e, fs path = Unopenable e ->
                  parse_file cfg y fs path cap = Returned []) /\
  exists all_parsed_lines,
    parse_files_parallel cfg y fs paths workers cap completion
    = Returned all_parsed_lines /\
    Permutation all_parsed_lines
      (flat_map (fun path => records_of (parse_file cfg y fs path cap)) paths).
Proof.
  intros Hw Hperm. split; [| split].
  - intros path. apply parse_file_returns.
  - intros path e He. rewrite parse_file_returns, He. unfold records_read.
    cbn. now rewrite firstn_nil.
  - eexists. split; [apply parse_files_parallel_merge; exact Hw |].
    rewrite (flat_map_ext _ (fun path => records_read cfg y (fs path) path cap)).
    + rewrite <- contributions_in_order.
      apply Permutation_flat_map. exact Hperm.
    + intros path. now rewrite parse_file_returns.
Qed.

Lemma file_failures_are_isolated_witness :
  (0 < 4)%Z /\
  Permutation [2; 0; 1]%nat (seq 0 (length ["broken.log"; "good.log"; "none.log"])) /\
  exists all_parsed_lines,
    parse_files_parallel default_config 2026 failing_fs
      ["broken.log"; "good.log"; "none.log"] 4 None [2; 0; 1]%nat
    = Returned all_parsed_lines /\
    Permutation all_parsed_lines
      (flat_map (fun path => records_of (parse_file default_config 2026 failing_fs
                                                    path None))
                ["broken.log"; "good.log"; "none.log"]).
Proof.
  assert (Hw : (0 < 4)%Z) by lia.
  assert (Hp : Permutation [2; 0; 1]%nat
                 (seq 0 (length ["broken.log"; "good.log"; "none.log"]))).
  { cbn. apply Permutation_sym.
    apply (perm_trans (l' := [0; 2; 1]%nat)).
    - apply perm_skip. apply perm_swap.
    - apply perm_swap. }
  split; [exact Hw |]. split; [exact Hp |].
  exact (proj2 (proj2 (file_failures_are_isolated default_config 2026 failing_fs
                         ["broken.log"; "good.log"; "none.log"] 4 None
                         [2; 0; 1]%nat Hw Hp))).
Defined.

(** C3, as stated, fails: the reading of [broken.log] fails after one
    line, and [parse_file] returns the record of that line, not an empty
    list. *)
Lemma read_failure_keeps_records :
  failing_fs "broken.log"
  = Opened ["2023-10-01 14:30:45 ERROR disk full"] (ReadError OSError) /\
  parse_file default_config 2026 failing_fs "broken.log" None <> Returned [] /\
  length (records_of (parse_file default_config 2026 failing_fs "broken.log" None))
  = 1%nat.
Proof.
  split; [reflexivity |]. split.
  - vm_compute. discriminate.
  - vm_compute. reflexivity.
Qed.

Lemma parsed_prefix_length cfg y path n lines a b :
  (a <= b)%nat ->
  (length (parse_lines_from cfg y path n (firstn a lines))
   <= length (parse_lines_from cfg y path n (firstn b lines)))%nat.
Proof.
  revert n a b. induction lines as [| line lines IH]; intros n a b Hab.
  - now rewrite !firstn_nil.
  - destruct a as [| a]; [cbn; lia |].
    destruct b as [| b]; [lia |].
    cbn [firstn parse_lines_from].
    assert (H := IH (n + 1)%Z a b ltac:(lia)).
    destruct (parse_line cfg y line path n); cbn [length]; lia.
Qed.

Lemma record_count_eq cfg y fs path cap :
  record_count cfg y fs path cap
  = length (records_read cfg y (fs path) path cap).
Proof.
  unfold record_count. now rewrite parse_file_returns.
Qed.

Lemma parsed_prefix_le_all cfg y path n lines a :
  (length (parse_lines_from cfg y path n (firstn a lines))
   <= length (parse_lines_from cfg y path n lines))%nat.
Proof.
  destruct (Nat.le_ge_cases a (length lines)) as [H | H].
  - rewrite <- (firstn_all lines) at 2. now apply parsed_prefix_length.
  - rewrite firstn_all2 by exact H. lia.
Qed.

(** C9 (amended): for caps [m <= n] with [m] not zero the record count
    under [m] is at most the one under [n], and the count under any cap is
    at most the one with the cap unset.  (A cap of zero counts as unset.) *)
Theorem cap_monotone cfg y fs path (m n : Z) :
  m <> 0%Z -> (m <= n)%Z ->
  (record_count cfg y fs path (Some m) <= record_count cfg y fs path (Some n))%nat /\
  (record_count cfg y fs path (Some n) <= record_count cfg y fs path None)%nat.
Proof.
  intros Hm Hmn. rewrite !record_count_eq. unfold records_read.
  generalize (lines_read (fs path)) as lines. intros lines.
  split.
  - unfold cap_lines. destruct (Z.eqb_spec m 0) as [| _]; [contradiction |].
    destruct (Z.eqb_spec n 0) as [-> | Hn].
    + rewrite (firstn_all lines). apply parsed_prefix_le_all.
    + apply parsed_prefix_length. lia.
  - cbn [cap_lines]. rewrite (firstn_all lines). apply parsed_prefix_le_all.
Qed.

Lemma cap_monotone_witness :
  1%Z <> 0%Z /\ (1 <= 2)%Z /\
  (record_count default_config 2026 failing_fs "good.log" (Some 1%Z)
   <= record_count default_config 2026 failing_fs "good.log" (Some 2%Z))%nat /\
  (record_count default_config 2026 failing_fs "good.log" (Some 2%Z)
   <= record_count default_config 2026 failing_fs "good.log" None)%nat.
Proof.
  assert (H1 : 1%Z <> 0%Z) by discriminate.
  assert (H2 : (1 <= 2)%Z) by lia.
  split; [exact H1 |]. split; [exact H2 |].
  exact (cap_monotone default_config 2026 failing_fs "good.log" 1 2 H1 H2).
Defined.

(** C9, as stated, fails at the cap 0: [good.log] gives two records
    under the cap 0 and one under the cap 1. *)
Lemma cap_zero_not_monotone :
  (0 <= 1)%Z /\
  record_count default_config 2026 failing_fs "good.log" (Some 0%Z) = 2%nat /\
  record_count default_config 2026 failing_fs "good.log" (Some 1%Z) = 1%nat /\
  ~ (record_count default_config 2026 failing_fs "good.log" (Some 0%Z)
     <= record_count default_config 2026 failing_fs "good.log" (Some 1%Z))%nat.
Proof.
  split; [lia |].
  assert (H0 : record_count default_config 2026 failing_fs "good.log" (Some 0%Z) = 2%nat)
    by (vm_compute; reflexivity).
  assert (H1 : record_count default_config 2026 failing_fs "good.log" (Some 1%Z) = 1%nat)
    by (vm_compute; reflexivity).
  split; [exact H0 |]. split; [exact H1 |].
  rewrite H0, H1. lia.
Qed.

(** C10: a cap of zero parses the whole file, as an unset cap does, and
    a positive cap [k] gives the records of the first [k] lines only. *)
Theorem zero_cap_is_no_cap cfg y fs path (k : Z) :
  (0 < k)%Z ->
  parse_file cfg y fs path (Some 0%Z) = parse_file cfg y fs path None /\
  parse_file cfg y fs path (Some 0%Z)
  = Returned (parse_lines_from cfg y path 1 (lines_read (fs path))) /\
  parse_file cfg y fs path (Some k)
  = Returned (parse_lines_from cfg y path 1
                (firstn (Z.to_nat k) (lines_read (fs path)))).
Proof.
  intros Hk. rewrite !parse_file_returns. unfold records_read, cap_lines.
  cbn [Z.eqb]. rewrite firstn_all.
  destruct (Z.eqb_spec k 0) as [| _]; [lia |].
  repeat split; reflexivity.
Qed.

Lemma zero_cap_is_no_cap_witness :
  (0 < 1)%Z /\
  parse_file default_config 2026 failing_fs "good.log" (Some 0%Z)
  = parse_file default_config 2026 failing_fs "good.log" None /\
  parse_file default_config 2026 failing_fs "good.log" (Some 0%Z)
  = Returned (parse_lines_from default_config 2026 "good.log" 1
                (lines_read (failing_fs "good.log"))) /\
  parse_file default_config 2026 failing_fs "good.log" (Some 1%Z)
  = Returned (parse_lines_from default_config 2026 "good.log" 1
                (firstn (Z.to_nat 1) (lines_read (failing_fs "good.log")))).
Proof.
  assert (Hk : (0 < 1)%Z) by lia.
  split; [exact Hk |].
  exact (zero_cap_is_no_cap default_config 2026 failing_fs "good.log" 1 Hk).
Defined.

End ParserProps.

(** ** Properties of the analyzer *)

Module AnalyzerProps.
Import DataAnalyzer AnalyzerSpec.

(** *** Lists *)

Lemma filter_filter_and {A : Type} (f g : A -> bool) (l : list A) :
  filter g (filter f l) = filter (fun x => f x && g x) l.
Proof.
  induction l as [| x l IH]; cbn; [reflexivity |].
  destruct (f x); cbn; [destruct (g x) |]; now rewrite IH.
Qed.

Lemma filter_nil_iff {A : Type} (f : A -> bool) (l : list A) :
  filter f l = [] <-> forall x, In x l -> f x = false.
Proof.
  induction l as [| a l IH]; cbn.
  - split; [intros _ x [] | reflexivity].
  - destruct (f a) eqn:Ea.
    + split; [discriminate |]. intros H. rewrite (H a) in Ea; [discriminate | now left].
    + rewrite IH. split.
      * intros H x [<- | Hx]; auto.
      * intros H x Hx. apply H. now right.
Qed.

Lemma in_omap {A B : Type} (f : A -> option B) (l : list A) (b : B) :
  In b (omap f l) <-> exists a, In a l /\ f a = Some b.
Proof.
  unfold omap. rewrite in_flat_map. split.
  - intros (a & Ha & Hb). exists a. split; [exact Ha |].
    destruct (f a) as [b' |]; cbn in Hb; [destruct Hb as [-> | []]; reflexivity | contradiction].
  - intros (a & Ha & Hb). exists a. split; [exact Ha |]. rewrite Hb. now left.
Qed.

Lemma omap_cons {A B : Type} (f : A -> option B) (a : A) (l : list A) :
  omap f (a :: l) = match f a with Some b => b :: omap f l | None => omap f l end.
Proof. unfold omap. cbn. destruct (f a); reflexivity. Qed.


(** *** Keys of a grouping *)

Lemma in_insert_key k l x : In x (insert_key k l) <-> x = k \/ In x l.
Proof.
  induction l as [| y l IH]; cbn.
  - intuition.
  - destruct (Z.ltb_spec k y); [cbn; intuition |].
    destruct (Z.eqb_spec k y) as [-> |]; cbn; [intuition |].
    rewrite IH. intuition.
Qed.

Lemma in_sorted_keys l x : In x (sorted_keys l) <-> In x l.
Proof.
  induction l as [| k l IH]; cbn; [reflexivity |].
  rewrite in_insert_key, IH. intuition.
Qed.

Lemma insert_key_sorted k l :
  StronglySorted Z.lt l -> StronglySorted Z.lt (insert_key k l).
Proof.
  induction 1 as [| y l Hs IH Hall]; cbn.
  - constructor; constructor.
  - destruct (Z.ltb_spec k y) as [Hlt | Hge].
    + constructor; [now constructor |].
      constructor; [exact Hlt |].
      eapply Forall_impl; [| exact Hall]. cbn. intros; lia.
    + destruct (Z.eqb_spec k y) as [-> | Hne]; [now constructor |].
      constructor; [exact IH |].
      apply Forall_forall. intros x Hx. apply in_insert_key in Hx.
      destruct Hx as [-> | Hx]; [lia |].
      rewrite Forall_forall in Hall. now apply Hall.
Qed.

Lemma sorted_keys_sorted l : StronglySorted Z.lt (sorted_keys l).
Proof.
  induction l as [| k l IH]; cbn; [constructor |].
  now apply insert_key_sorted.
Qed.

Lemma lt_sorted_nodup l : StronglySorted Z.lt l -> NoDup l.
Proof.
  induction 1 as [| y l Hs IH Hall]; constructor; [| exact IH].
  intros Hin. rewrite Forall_forall in Hall. specialize (Hall y Hin). lia.
Qed.

Lemma sorted_keys_nodup l : NoDup (sorted_keys l).
Proof. apply lt_sorted_nodup, sorted_keys_sorted. Qed.

(** A key has a group exactly when some row has it, and the rows of a
    key outside the grouping are none. *)
Lemma group_key_iff {A : Type} (key : A -> option Z) (rows : list A) (k : Z) :
  In k (sorted_keys (omap key rows)) <-> filter (has_key key k) rows <> [].
Proof.
  rewrite in_sorted_keys, in_omap. split.
  - intros (a & Ha & Hk) Hnil.
    rewrite filter_nil_iff in Hnil. specialize (Hnil a Ha).
    unfold has_key in Hnil. rewrite Hk, Z.eqb_refl in Hnil. discriminate.
  - intros Hne. destruct (filter (has_key key k) rows) as [| a t] eqn:E; [congruence |].
    assert (Ha : In a (filter (has_key key k) rows)) by (rewrite E; now left).
    apply filter_In in Ha. destruct Ha as [Ha Hk]. exists a. split; [exact Ha |].
    unfold has_key in Hk. destruct (key a) as [k' |]; [| discriminate].
    apply Z.eqb_eq in Hk. now subst.
Qed.



(** *** The window filter *)

Section Window.
Variable parse_text : string -> option Timestamp.

Lemma filter_steps_spec a (df : frame cell) :
  filter (fun r => in_window a (timestamp r))
         (filter (fun r => notna (timestamp r))
                 (map (set_timestamp (to_datetime parse_text)) df))
  = window_filter_spec parse_text a df.
Proof.
  induction df as [| r df IH]; [reflexivity |].
  cbn [map filter window_filter_spec flat_map].
  fold (window_filter_spec parse_text a df). rewrite <- IH.
  destruct r as [ts lv he ec fp ti iw ies]. unfold set_timestamp. cbn.
  destruct ts as [t | | s]; cbn.
  - destruct ((start_time a <=? t)%Z && (t <=? end_time a)%Z); reflexivity.
  - reflexivity.
  - destruct (parse_text s) as [t |]; cbn; [| reflexivity].
    destruct ((start_time a <=? t)%Z && (t <=? end_time a)%Z); reflexivity.
Qed.

Lemma filter_by_timeframe_spec a (df : frame cell) :
  filter_by_timeframe parse_text a df = window_filter_spec parse_text a df.
Proof.
  unfold filter_by_timeframe. destruct df as [| r df]; [reflexivity |].
  cbn [empty]. apply filter_steps_spec.
Qed.




(** A surviving record carries a point in time inside the window. *)
Lemma window_filter_spec_in a (df : frame cell) (r : row cell) :
  In r (window_filter_spec parse_text a df) <->
  exists r0 t,
    In r0 df /\ usable_time parse_text (timestamp r0) = Some t /\
    (start_time a <= t <= end_time a)%Z /\
    r = set_timestamp (fun _ => Time t) r0.
Proof.
  unfold window_filter_spec. rewrite in_flat_map. split.
  - intros (r0 & Hin & Hr).
    destruct (usable_time parse_text (timestamp r0)) as [t |] eqn:Et; [| contradiction].
    destruct ((start_time a <=? t)%Z && (t <=? end_time a)%Z) eqn:E; [| contradiction].
    destruct Hr as [<- | []]. exists r0, t.
    apply andb_true_iff in E. destruct E as [E1 E2].
    apply Z.leb_le in E1. apply Z.leb_le in E2. auto.
  - intros (r0 & t & Hin & Et & [H1 H2] & ->). exists r0. split; [exact Hin |].
    rewrite Et.
    replace ((start_time a <=? t)%Z && (t <=? end_time a)%Z) with true; [now left |].
    symmetry. apply andb_true_iff. split; now apply Z.leb_le.
Qed.

End Window.

(** The window filter on a sample frame: of five rows the two inside
    09:00-14:00 survive, the text ["noon"] as the time it parses to. *)
Example filter_by_timeframe_sample :
  map timestamp (filter_by_timeframe text_as_seconds (init 0%Z true) window_frame)
  = [Time (10 * hour_ns)%Z; Time (12 * hour_ns)%Z].
Proof. vm_compute. reflexivity. Qed.

(** *** Error bursts *)

Section PatternProps.
Variable timestamp_str : option Timestamp -> string.
Variable sort_values : list (string * nat) -> list (string * nat).
Variable list_set : list string -> list string.

Lemma cascades_are_cascades (error_df : dframe) p :
  In p (cascades timestamp_str sort_values list_set error_df) ->
  exists t n s c, p = cascading_failure t n s c.
Proof.
  unfold cascades. rewrite in_flat_map. intros ([t n] & _ & Hp).
  destruct (1 <? n)%nat; [| contradiction].
  destruct Hp as [<- | []]. eauto.
Qed.

Lemma bursts_by_key (error_df : dframe) :
  bursts error_df
  = flat_map
      (fun k =>
         let c := length (filter (has_key minute_key k) error_df) in
         if (5 <? c)%nat then [error_burst k c (burst_description c k)] else [])
      (sorted_keys (omap minute_key error_df)).
Proof.
  unfold bursts, groupby.
  generalize (sorted_keys (omap minute_key error_df)) as ks.
  induction ks as [| k ks IH]; [reflexivity |].
  cbn [map filter flat_map]. cbn zeta.
  destruct (5 <? length (filter (has_key minute_key k) error_df))%nat;
    cbn [map app]; now rewrite IH.
Qed.



End PatternProps.

(** Five errors in one minute give no burst entry, six give one. *)
Example five_errors_no_burst :
  patterns (analyze_error_patterns plain_timestamp_str stable_sort_values
                                   first_seen_list_set five_in_a_minute) = [].
Proof. vm_compute. reflexivity. Qed.

Example six_errors_one_burst :
  patterns (analyze_error_patterns plain_timestamp_str stable_sort_values
                                   first_seen_list_set six_in_a_minute)
  = [error_burst (120 * second_ns)%Z 6 "6 errors in 1 minute starting at 00:02:00"].
Proof. vm_compute. reflexivity. Qed.

(** *** Counting *)

Lemma in_remove_iff (x y : string) (l : list string) :
  In y (remove string_dec x l) <-> In y l /\ y <> x.
Proof.
  split.
  - apply in_remove.
  - intros [H1 H2]. now apply in_in_remove.
Qed.

Lemma nodup_remove (x : string) (l : list string) :
  NoDup l -> NoDup (remove string_dec x l).
Proof.
  induction 1 as [| y l Hnin Hnd IH]; cbn; [constructor |].
  destruct (string_dec x y); [exact IH |].
  constructor; [| exact IH].
  rewrite in_remove_iff. tauto.
Qed.

Lemma in_uniq (l : list string) (x : string) : In x (uniq l) <-> In x l.
Proof.
  induction l as [| y l IH]; cbn; [reflexivity |].
  rewrite in_remove_iff, IH.
  destruct (string_dec y x) as [-> | Hne]; [tauto |].
  split; [tauto |]. intros [H | H]; [tauto |]. right. split; [exact H | congruence].
Qed.

Lemma uniq_nodup (l : list string) : NoDup (uniq l).
Proof.
  induction l as [| y l IH]; cbn; constructor.
  - rewrite in_remove_iff. tauto.
  - now apply nodup_remove.
Qed.

Lemma Counter_keys (l : list string) : map fst (Counter l) = uniq l.
Proof. unfold Counter. rewrite map_map. cbn. apply map_id. Qed.

Lemma in_Counter (l : list string) (k : string) (c : nat) :
  In (k, c) (Counter l) <-> In k l /\ c = count_occ string_dec l k.
Proof.
  unfold Counter. rewrite in_map_iff. split.
  - intros (x & E & Hx). inversion E; subst.
    split; [exact (proj1 (in_uniq _ _) Hx) | reflexivity].
  - intros [Hk ->]. exists k. split; [reflexivity | now apply in_uniq].
Qed.





Lemma nodup_firstn {A : Type} (n : nat) (l : list A) : NoDup l -> NoDup (firstn n l).
Proof.
  intros H. rewrite <- (firstn_skipn n l) in H. now apply NoDup_app_remove_r in H.
Qed.

Lemma in_firstn {A : Type} (n : nat) (l : list A) (x : A) :
  In x (firstn n l) -> In x l.
Proof.
  intros H. rewrite <- (firstn_skipn n l). apply in_or_app. now left.
Qed.

Lemma sorted_app_inv {A : Type} (R : A -> A -> Prop) (l1 l2 : list A) :
  StronglySorted R (l1 ++ l2) ->
  forall a b, In a l1 -> In b l2 -> R a b.
Proof.
  induction l1 as [| x l1 IH]; cbn; intros Hs a b Ha Hb; [contradiction |].
  inversion Hs as [| ? ? Hs' Hall]; subst.
  destruct Ha as [-> | Ha].
  - rewrite Forall_forall in Hall. apply Hall. apply in_or_app. now right.
  - now apply IH.
Qed.

Lemma sorted_firstn {A : Type} (R : A -> A -> Prop) (n : nat) (l : list A) :
  StronglySorted R l -> StronglySorted R (firstn n l).
Proof.
  revert n. induction l as [| x l IH]; intros n Hs.
  - rewrite firstn_nil. constructor.
  - destruct n as [| n]; [constructor |]. cbn.
    inversion Hs as [| ? ? Hs' Hall]; subst.
    constructor; [now apply IH |].
    apply Forall_forall. intros y Hy. apply in_firstn in Hy.
    rewrite Forall_forall in Hall. now apply Hall.
Qed.

(** An element of a list is among its first [n], or lies beyond them,
    and then the first [n] are [n] in number. *)
Lemma firstn_or_beyond {A : Type} (n : nat) (l : list A) (x : A) :
  In x l ->
  In x (firstn n l) \/ (In x (skipn n l) /\ length (firstn n l) = n).
Proof.
  intros Hin. rewrite <- (firstn_skipn n l) in Hin.
  apply in_app_or in Hin. destruct Hin as [H | H]; [now left | right].
  split; [exact H |].
  rewrite length_firstn. apply Nat.min_l.
  destruct (Nat.le_gt_cases n (length l)) as [Hle | Hgt]; [exact Hle |].
  rewrite skipn_all2 in H by lia. contradiction.
Qed.

(** *** Ranking *)

Section RankingProps.
Context {A : Type} (count : A -> nat).

Lemma insert_desc_perm (x : A) (l : list A) :
  Permutation (insert_desc count x l) (x :: l).
Proof.
  induction l as [| y l IH]; cbn [insert_desc]; [reflexivity |].
  destruct (count x <? count y)%nat; [| reflexivity].
  rewrite IH. apply perm_swap.
Qed.

Lemma sort_desc_perm (l : list A) : Permutation (sort_desc count l) l.
Proof.
  induction l as [| x l IH]; cbn [sort_desc fold_right]; [reflexivity |].
  fold (sort_desc count l). rewrite insert_desc_perm. now apply perm_skip.
Qed.

Lemma in_insert_desc (x y : A) (l : list A) :
  In y (insert_desc count x l) <-> y = x \/ In y l.
Proof.
  split; intros H.
  - apply (Permutation_in _ (insert_desc_perm x l)) in H. cbn in H. intuition.
  - apply (Permutation_in _ (Permutation_sym (insert_desc_perm x l))). cbn. intuition.
Qed.

Lemma in_sort_desc (y : A) (l : list A) : In y (sort_desc count l) <-> In y l.
Proof.
  split; apply Permutation_in; [| apply Permutation_sym]; apply sort_desc_perm.
Qed.

Lemma insert_desc_sorted (x : A) (l : list A) :
  StronglySorted (count_ge count) l -> StronglySorted (count_ge count) (insert_desc count x l).
Proof.
  induction 1 as [| y l Hs IH Hall]; cbn [insert_desc].
  - constructor; constructor.
  - rewrite Forall_forall in Hall.
    destruct (Nat.ltb_spec (count x) (count y)) as [Hlt | Hge].
    + constructor; [exact IH |].
      apply Forall_forall. intros z Hz. apply in_insert_desc in Hz.
      destruct Hz as [-> | Hz]; [unfold count_ge; lia | now apply Hall].
    + constructor; [constructor; [exact Hs | now apply Forall_forall] |].
      apply Forall_forall. intros z [<- | Hz]; [exact Hge |].
      specialize (Hall z Hz). unfold count_ge in *. lia.
Qed.

Lemma sort_desc_sorted (l : list A) : StronglySorted (count_ge count) (sort_desc count l).
Proof.
  induction l as [| x l IH]; cbn [sort_desc fold_right]; [constructor |].
  now apply insert_desc_sorted.
Qed.

Variable start : A -> Z.


End RankingProps.

Lemma sort_desc_map {A B : Type} (f : A -> B) (cA : A -> nat) (cB : B -> nat)
    (l : list A) :
  (forall a, cB (f a) = cA a) ->
  sort_desc cB (map f l) = map f (sort_desc cA l).
Proof.
  intros Hc. induction l as [| x l IH]; [reflexivity |].
  cbn [map sort_desc fold_right]. fold (sort_desc cB (map f l)). fold (sort_desc cA l).
  rewrite IH. generalize (sort_desc cA l) as s. intros s.
  induction s as [| y s IHs]; [reflexivity |].
  cbn [map insert_desc]. rewrite !Hc.
  destruct (cA x <? cA y)%nat; cbn [map]; [now rewrite IHs | reflexivity].
Qed.


Lemma filter_nodup (f : string -> bool) (l : list string) :
  filter f (nodup string_dec l) = nodup string_dec (filter f l).
Proof.
  induction l as [| x l IH]; [reflexivity |].
  cbn [nodup filter]. destruct (in_dec string_dec x l) as [Hin | Hnin].
  - destruct (f x) eqn:E; [| exact IH].
    cbn [nodup]. destruct (in_dec string_dec x (filter f l)) as [_ | Hn]; [exact IH |].
    exfalso. apply Hn. apply filter_In. now split.
  - cbn [filter]. destruct (f x) eqn:E; [| exact IH].
    cbn [nodup]. destruct (in_dec string_dec x (filter f l)) as [Hi | _].
    + apply filter_In in Hi. tauto.
    + now rewrite IH.
Qed.

(** *** Cascading failures *)

Section CascadeProps.
Variable timestamp_str : option Timestamp -> string.
Variable sort_values : list (string * nat) -> list (string * nat).
Variable list_set : list string -> list string.

Hypothesis sort_values_perm : forall l, Permutation (sort_values l) l.
Hypothesis sort_values_desc :
  forall l, StronglySorted (fun a b => (snd b <= snd a)%nat) (sort_values l).
Hypothesis list_set_nodup : forall l, NoDup (list_set l).
Hypothesis list_set_in : forall l x, In x (list_set l) <-> In x l.








End CascadeProps.




(** [most_common n] gives at most [n] labels, each with its number of
    occurrences, in descending order of that number; a label left out
    occurs at most as often as each label given, which are then [n]. *)
Lemma most_common_top (n : nat) (l : list string) :
  (length (most_common n l) <= n)%nat /\
  StronglySorted (count_ge snd) (most_common n l) /\
  NoDup (map fst (most_common n l)) /\
  (forall k c, In (k, c) (most_common n l) ->
               In k l /\ c = count_occ string_dec l k) /\
  (forall k, In k l -> ~ In k (map fst (most_common n l)) ->
             length (most_common n l) = n /\
             forall k' c', In (k', c') (most_common n l) ->
                           (count_occ string_dec l k <= c')%nat).
Proof.
  unfold most_common, nlargest.
  assert (Hs := sort_desc_sorted snd (Counter l)).
  split; [apply firstn_le_length |]. split; [now apply sorted_firstn |]. split.
  - rewrite <- firstn_map. apply nodup_firstn.
    apply (Permutation_NoDup (l := map fst (Counter l))).
    + apply Permutation_map, Permutation_sym, sort_desc_perm.
    + rewrite Counter_keys. apply uniq_nodup.
  - split.
    + intros k c H. apply in_firstn in H. apply (proj1 (in_sort_desc _ _ _)) in H.
      now apply in_Counter.
    + intros k Hk Hnot.
      assert (Hin : In (k, count_occ string_dec l k) (sort_desc snd (Counter l))).
      { apply in_sort_desc. apply in_Counter. now split. }
      destruct (firstn_or_beyond n _ _ Hin) as [H | [Hskip Hlen]].
      * exfalso. apply Hnot.
        change k with (fst (k, count_occ string_dec l k)). now apply in_map.
      * split; [exact Hlen |]. intros k' c' H'.
        rewrite <- (firstn_skipn n) in Hs.
        exact (sorted_app_inv _ _ _ Hs (k', c') (k, count_occ string_dec l k)
                              H' Hskip).
Qed.

(** *** Peak periods *)

Lemma peak_bucket_eq (df : dframe) (k : Timestamp) :
  filter (has_key peak_key k) (errors_of df) = peak_bucket df k.
Proof. unfold errors_of, peak_bucket. apply filter_filter_and. Qed.

Lemma peak_of_aggregate (df : dframe) (k : Timestamp) :
  peak_of 5 (aggregate (k, filter (has_key peak_key k) (errors_of df)))
  = peak_entry df k.
Proof.
  rewrite peak_bucket_eq. unfold peak_of, aggregate, peak_entry, nunique.
  cbn [time_bin agg_error_count agg_error_categories agg_file_path agg_transaction_id].
  now rewrite filter_nodup.
Qed.

Lemma identify_peak_periods_ranked (df : dframe) :
  identify_peak_periods df 5
  = firstn 5 (sort_desc error_count (map (peak_entry df) (peak_keys df))).
Proof.
  assert (E : map (peak_of 5)
                  (nlargest agg_error_count 5
                     (map aggregate (groupby peak_key (errors_of df))))
              = firstn 5 (sort_desc error_count (map (peak_entry df) (peak_keys df)))).
  { unfold nlargest. rewrite <- firstn_map. f_equal.
    rewrite <- (sort_desc_map (peak_of 5) agg_error_count error_count)
      by reflexivity.
    f_equal. unfold groupby. fold (peak_keys df). rewrite !map_map.
    apply map_ext. intros k. apply peak_of_aggregate. }
  unfold identify_peak_periods. destruct df as [| r df]; [reflexivity |].
  cbn [empty].
  change (fun r0 : row (option Timestamp) =>
            option_map (floor_to (5 * minute_ns)) (timestamp r0)) with peak_key.
  destruct (map aggregate (groupby peak_key (errors_of (r :: df)))) eqn:Eaggs.
  - cbn [empty]. rewrite <- E. reflexivity.
  - cbn [empty]. exact E.
Qed.

Lemma in_peak_keys (df : dframe) (k : Timestamp) :
  In k (peak_keys df) <-> peak_bucket df k <> [].
Proof. unfold peak_keys. rewrite group_key_iff, peak_bucket_eq. reflexivity. Qed.




(** The peak periods of a frame of six errors in one minute. *)
Example peak_periods_sample :
  identify_peak_periods six_in_a_minute 5
  = [PeakPeriod "00:00 - 00:05" 0%Z 6 [("timeout_errors", 6%nat)] 1 0].
Proof. vm_compute. reflexivity. Qed.

End AnalyzerProps.

(** ** Properties of the file scanner *)

Module ScannerProps.
Import LogFileScanner.

Lemma filter_by_size_loop_eq l min max acc :
  filter_by_size_loop l min max acc = acc ++ filter (size_in_range min max) l.
Proof.
  revert acc. induction l as [| f l IH]; intros acc; cbn [filter_by_size_loop filter].
  - now rewrite app_nil_r.
  - unfold size_in_range at 1. cbn zeta.
    destruct ((min <=? file_size f)%Z
              && match max with None => true | Some m => (file_size f <=? m)%Z end).
    + rewrite IH, <- app_assoc. reflexivity.
    + apply IH.
Qed.

Lemma filter_by_size_filter l min max :
  filter_by_size l min max = filter (size_in_range min max) l.
Proof. unfold filter_by_size. now rewrite filter_by_size_loop_eq. Qed.

Lemma filter_by_modified_date_loop_eq l s e acc :
  filter_by_modified_date_loop l s e acc
  = acc ++ filter (modified_in_range s e) l.
Proof.
  revert acc. induction l as [| f l IH]; intros acc;
    cbn [filter_by_modified_date_loop filter].
  - now rewrite app_nil_r.
  - cbn zeta. unfold modified_in_range at 1.
    assert (E : (match e with
                 | Some e0 => if (e0 <? modified_time f)%Z then false
                              else match s with
                                   | Some s0 => if (modified_time f <? s0)%Z
                                                then false else true
                                   | None => true
                                   end
                 | None => match s with
                           | Some s0 => if (modified_time f <? s0)%Z
                                        then false else true
                           | None => true
                           end
                 end)
                = (match s with None => true | Some s0 => (s0 <=? modified_time f)%Z end
                   && match e with None => true | Some e0 => (modified_time f <=? e0)%Z end)).
    { destruct s as [s0 |], e as [e0 |]; cbn;
        repeat match goal with
               | |- context [(?a <? ?b)%Z] => destruct (Z.ltb_spec a b)
               | |- context [(?a <=? ?b)%Z] => destruct (Z.leb_spec a b)
               end; cbn; try reflexivity; lia. }
    rewrite E.
    destruct (match s with None => true | Some s0 => (s0 <=? modified_time f)%Z end
              && match e with None => true | Some e0 => (modified_time f <=? e0)%Z end).
    + rewrite IH, <- app_assoc. reflexivity.
    + apply IH.
Qed.

Lemma filter_by_modified_date_filter l s e :
  filter_by_modified_date l s e = filter (modified_in_range s e) l.
Proof.
  unfold filter_by_modified_date.
  destruct s as [s0 |], e as [e0 |];
    try (now rewrite filter_by_modified_date_loop_eq).
  symmetry. apply forallb_filter_id. apply forallb_forall. reflexivity.
Qed.

Lemma filter_comm {A : Type} (f g : A -> bool) (l : list A) :
  filter f (filter g l) = filter g (filter f l).
Proof.
  induction l as [| x l IH]; cbn; [reflexivity |].
  destruct (f x) eqn:Ef, (g x) eqn:Eg; cbn; rewrite ?Ef, ?Eg, IH; reflexivity.
Qed.

(** X1: [filter_by_size] keeps, in their order, exactly the files whose
    size is at least [min_size] and at most [max_size] when one is given;
    filtering again with a range that contains the first changes nothing, and
    the order in which the size filter and the date filter are applied does
    not matter. *)
Theorem filter_by_size_range l min max :
  filter_by_size l min max = filter (size_in_range min max) l /\
  (forall f, In f (filter_by_size l min max) <->
             In f l /\ (min <= file_size f)%Z /\
             (forall m, max = Some m -> (file_size f <= m)%Z)) /\
  (forall min' max',
     (min' <= min)%Z ->
     (forall m', max' = Some m' -> exists m, max = Some m /\ (m <= m')%Z) ->
     filter_by_size (filter_by_size l min max) min' max' = filter_by_size l min max) /\
  (forall s e,
     filter_by_size (filter_by_modified_date l s e) min max
     = filter_by_modified_date (filter_by_size l min max) s e).
Proof.
  split; [apply filter_by_size_filter |]. split; [| split].
  - intros f. rewrite filter_by_size_filter, filter_In. unfold size_in_range.
    rewrite andb_true_iff, Z.leb_le. split.
    + intros (Hin & Hmin & Hmax). repeat split; try assumption.
      intros m ->. now apply Z.leb_le.
    + intros (Hin & Hmin & Hmax). repeat split; try assumption.
      destruct max as [m |]; [| reflexivity]. apply Z.leb_le. now apply Hmax.
  - intros min' max' Hmin Hmax. rewrite !filter_by_size_filter.
    apply forallb_filter_id. apply forallb_forall. intros f Hf.
    apply filter_In in Hf. destruct Hf as [_ Hf]. unfold size_in_range in *.
    apply andb_true_iff in Hf. destruct Hf as [H1 H2].
    apply Z.leb_le in H1. apply andb_true_iff. split; [apply Z.leb_le; lia |].
    destruct max' as [m' |]; [| reflexivity].
    destruct (Hmax m' eq_refl) as (m & -> & Hm).
    apply Z.leb_le in H2. apply Z.leb_le. lia.
  - intros s e. rewrite !filter_by_size_filter, !filter_by_modified_date_filter.
    apply filter_comm.
Qed.


Lemma bump_sum ext d : count_sum (bump ext d) = S (count_sum d).
Proof.
  unfold count_sum. induction d as [| [k v] d IH]; cbn [bump]; [reflexivity |].
  destruct (String.eqb k ext); cbn [fold_right snd] in *; [reflexivity |].
  rewrite IH. lia.
Qed.

Lemma bump_keys ext d x :
  In x (map fst (bump ext d)) <-> x = ext \/ In x (map fst d).
Proof.
  induction d as [| [k v] d IH]; cbn; [intuition |].
  destruct (String.eqb_spec k ext) as [-> | Hne]; cbn; [intuition |].
  rewrite IH. intuition.
Qed.

Lemma bump_nodup ext d : NoDup (map fst d) -> NoDup (map fst (bump ext d)).
Proof.
  induction d as [| [k v] d IH]; cbn; intros Hnd.
  - constructor; [intros [] | constructor].
  - inversion Hnd as [| ? ? Hnin Hnd']; subst.
    destruct (String.eqb_spec k ext) as [-> | Hne]; cbn; [now constructor |].
    constructor; [| now apply IH].
    rewrite bump_keys. intros [E | H]; [congruence | contradiction].
Qed.

Lemma bump_get ext d k :
  get_count k (bump ext d)
  = if String.eqb ext k then S (get_count k d) else get_count k d.
Proof.
  induction d as [| [k0 v] d IH]; cbn.
  - reflexivity.
  - destruct (String.eqb_spec k0 ext) as [-> | Hne]; cbn.
    + destruct (String.eqb ext k); reflexivity.
    + destruct (String.eqb_spec k0 k) as [-> | Hne'].
      * destruct (String.eqb_spec ext k); [congruence | reflexivity].
      * exact IH.
Qed.

Lemma extensions_fold l d :
  let d' := fold_left (fun d f => bump (extension f) d) l d in
  count_sum d' = (count_sum d + length l)%nat /\
  (NoDup (map fst d) -> NoDup (map fst d')) /\
  (forall k, get_count k d'
             = (get_count k d + length (filter (with_extension k) l))%nat) /\
  (forall k, In k (map fst d') <->
             In k (map fst d) \/ exists f, In f l /\ extension f = k).
Proof.
  revert d. induction l as [| f l IH]; intros d; cbn zeta; cbn [fold_left].
  - cbn. repeat split; try lia; try tauto.
    intros [H | (f & [] & _)]. exact H.
  - destruct (IH (bump (extension f) d)) as (H1 & H2 & H3 & H4). cbn zeta in *.
    repeat split.
    + rewrite H1, bump_sum. cbn. lia.
    + intros Hnd. now apply H2, bump_nodup.
    + intros k. rewrite H3, bump_get. cbn [filter]. unfold with_extension at 2.
      destruct (String.eqb (extension f) k); cbn; lia.
    + rewrite H4, bump_keys. intros [[-> | H] | (g & Hg & E)].
      * right. exists f. split; [now left | reflexivity].
      * now left.
      * right. exists g. split; [now right | exact E].
    + rewrite H4, bump_keys. intros [H | (g & [<- | Hg] & E)].
      * left. now right.
      * left. left. now symmetry.
      * right. now exists g.
Qed.

Lemma total_size_fold l acc :
  fold_left (fun a f => (a + file_size f)%Z) l acc = (acc + size_sum l)%Z.
Proof.
  unfold size_sum. revert acc.
  induction l as [| f l IH]; intros acc; cbn [fold_left fold_right]; [lia |].
  rewrite IH. lia.
Qed.

Lemma min_by_modified_least best l :
  let f := min_by_modified best l in
  In f (best :: l) /\
  forall g, In g (best :: l) -> (modified_time f <= modified_time g)%Z.
Proof.
  revert best. induction l as [| x l IH]; intros best; cbn zeta.
  - cbn. split; [now left |]. intros g [<- | []]. lia.
  - cbn [min_by_modified]. destruct (Z.ltb_spec (modified_time x) (modified_time best)).
    + destruct (IH x) as [Hin Hle]. cbn zeta in *. split.
      * right. exact Hin.
      * intros g [<- | Hg]; [| now apply Hle].
        specialize (Hle x (or_introl eq_refl)). lia.
    + destruct (IH best) as [Hin Hle]. cbn zeta in *. split.
      * destruct Hin as [<- | Hin]; [now left | right; now right].
      * intros g [<- | [<- | Hg]].
        -- apply Hle. now left.
        -- specialize (Hle best (or_introl eq_refl)). lia.
        -- apply Hle. now right.
Qed.

Lemma max_by_modified_greatest best l :
  let f := max_by_modified best l in
  In f (best :: l) /\
  forall g, In g (best :: l) -> (modified_time g <= modified_time f)%Z.
Proof.
  revert best. induction l as [| x l IH]; intros best; cbn zeta.
  - cbn. split; [now left |]. intros g [<- | []]. lia.
  - cbn [max_by_modified]. destruct (Z.ltb_spec (modified_time best) (modified_time x)).
    + destruct (IH x) as [Hin Hle]. cbn zeta in *. split.
      * right. exact Hin.
      * intros g [<- | Hg]; [| now apply Hle].
        specialize (Hle x (or_introl eq_refl)). lia.
    + destruct (IH best) as [Hin Hle]. cbn zeta in *. split.
      * destruct Hin as [<- | Hin]; [now left | right; now right].
      * intros g [<- | [<- | Hg]].
        -- apply Hle. now left.
        -- specialize (Hle best (or_introl eq_refl)). lia.
        -- apply Hle. now right.
Qed.

(** X3: the summary of a list of files counts them all: [total_files]
    is their number and [total_size] the sum of their sizes; the counts per
    extension add up to the number of files, each extension appears once and
    with the number of files that have it; [oldest_file] and [newest_file]
    are files of the list with the least and the greatest modification time.
    The summary of no file has zero counts and neither of the two files. *)
Theorem file_summary_counts l :
  let s := get_file_summary l in
  total_files s = length l /\
  total_size s = size_sum l /\
  count_sum (extensions s) = length l /\
  NoDup (map fst (extensions s)) /\
  (forall k, get_count k (extensions s) = length (filter (with_extension k) l)) /\
  (forall k, In k (map fst (extensions s)) <-> exists f, In f l /\ extension f = k) /\
  (l = [] -> oldest_file s = None /\ newest_file s = None) /\
  (l <> [] ->
   exists old new,
     In old l /\ In new l /\
     oldest_file s = Some (file_path old, modified_time old) /\
     newest_file s = Some (file_path new, modified_time new) /\
     forall g, In g l ->
               (modified_time old <= modified_time g <= modified_time new)%Z).
Proof.
  destruct l as [| first others].
  - cbn. split; [reflexivity |]. split; [reflexivity |]. split; [reflexivity |].
    split; [constructor |]. split; [reflexivity |]. split.
    { intros k. split; [intros [] | intros (f & [] & _)]. }
    split; [auto | congruence].
  - cbn zeta. unfold get_file_summary.
    cbn [total_files total_size extensions oldest_file newest_file].
    destruct (extensions_fold (first :: others) []) as (H1 & H2 & H3 & H4).
    cbn zeta in H1, H2, H3, H4.
    split; [reflexivity |]. split; [now rewrite total_size_fold |].
    split; [exact H1 |]. split; [apply H2; constructor |].
    split; [exact H3 |]. split.
    { intros k. rewrite H4. cbn [map]. split; [intros [[] | H]; exact H | now right]. }
    split; [discriminate |]. intros _.
    destruct (min_by_modified_least first others) as [Ho1 Ho2].
    destruct (max_by_modified_greatest first others) as [Hn1 Hn2].
    cbn zeta in *.
    exists (min_by_modified first others), (max_by_modified first others).
    repeat split; try assumption; [now apply Ho2 | now apply Hn2].
Qed.

End ScannerProps.

(** ** More properties of the parser *)

Module ParserMoreProps.
Import LogParser ParserSpec ParserMoreSpec.

(** *** Categories *)

Lemma mem_in x l : mem x l = true <-> In x l.
Proof.
  unfold mem. rewrite existsb_exists. split.
  - intros (y & Hy & E). apply String.eqb_eq in E. now subst.
  - intros H. exists x. split; [exact H | apply String.eqb_refl].
Qed.

(** Picking labels out of a table with distinct keys gives the keys, in
    their order, that were picked. *)
Lemma pick_labels {P : Type} (pick : P -> bool) (table : list (string * P)) :
  NoDup (map fst table) ->
  let picked := flat_map (fun '(c, p) => if pick p then [c] else []) table in
  picked = filter (fun c => mem c picked) (map fst table) /\ NoDup picked.
Proof.
  induction table as [| [c p] table IH]; cbn zeta; intros Hnd.
  - split; [reflexivity | constructor].
  - inversion Hnd as [| ? ? Hnin Hnd']; subst.
    destruct (IH Hnd') as [IH1 IH2]. cbn zeta in IH1, IH2.
    set (rest := flat_map (fun '(c0, p0) => if pick p0 then [c0] else []) table) in *.
    assert (Hsub : forall x, In x rest -> In x (map fst table)).
    { intros x Hx. rewrite IH1 in Hx. apply filter_In in Hx. tauto. }
    cbn [flat_map map filter fst]. fold rest.
    destruct (pick p); cbn [app].
    + split.
      * unfold mem at 1. cbn [existsb]. rewrite String.eqb_refl. cbn [orb]. f_equal.
        rewrite IH1 at 1. apply filter_ext_in. intros x Hx.
        unfold mem. cbn [existsb].
        destruct (String.eqb_spec x c) as [-> | _]; [contradiction | reflexivity].
      * constructor; [| exact IH2]. intros H. apply Hnin. now apply Hsub.
    + split; [| exact IH2].
      replace (mem c rest) with false.
      * exact IH1.
      * symmetry. destruct (mem c rest) eqn:E; [| reflexivity].
        apply mem_in in E. exfalso. apply Hnin. now apply Hsub.
Qed.

Lemma category_names_nodup : NoDup category_names.
Proof.
  unfold category_names. cbn.
  repeat (constructor; [cbn; intros H;
            repeat (destruct H as [H | H]; [discriminate H |]); exact H |]).
  constructor.
Qed.

(** X4: the labels that [classify_error] gives are among the six
    category names, each at most once and in the order in which the
    categories are declared; a label is given exactly when one of the
    patterns of its category is found in the line. *)
Theorem classify_error_ordered line :
  classify_error line
  = filter (fun c => mem c (classify_error line))
           ["credit_card_errors"; "database_errors"; "server_errors";
            "timeout_errors"; "authentication_errors"; "exception_errors"] /\
  NoDup (classify_error line) /\
  (length (classify_error line) <= 6)%nat /\
  (forall c, In c (classify_error line) <->
             exists patterns,
               In (c, patterns) error_patterns /\
               existsb (fun pattern => searches pattern line) patterns = true).
Proof.
  destruct (pick_labels (fun patterns => existsb (fun pattern => searches pattern line)
                                                 patterns)
                        error_patterns category_names_nodup) as [H1 H2].
  cbn zeta in H1, H2. fold (classify_error line) in H1, H2.
  split; [exact H1 |]. split; [exact H2 |]. split.
  - rewrite H1. etransitivity; [apply filter_length_le | cbn; lia].
  - intros c. unfold classify_error. rewrite in_flat_map. split.
    + intros ([c' pats] & Hin & Hc).
      destruct (existsb _ pats) eqn:E; [| contradiction].
      destruct Hc as [<- | []]. now exists pats.
    + intros (pats & Hin & E). exists (c, pats). split; [exact Hin |].
      rewrite E. now left.
Qed.

(** *** Timestamps *)

Lemma strptime_valid text fmt d :
  Strptime.strptime text fmt = Some d -> Strptime.valid_datetime d = true.
Proof.
  unfold Strptime.strptime.
  destruct (Strptime.pattern false fmt) as [r |]; [| discriminate].
  destruct (Re.match_ r text) as [m |]; [| discriminate].
  destruct (Re.m_end m =? String.length text)%nat; [| discriminate].
  match goal with
  | |- (if Strptime.valid_datetime ?x then _ else _) = _ -> _ =>
      destruct (Strptime.valid_datetime x) eqn:E; [| discriminate]
  end.
  intros H. inversion H; subst. exact E.
Qed.

Lemma parse_matched_valid y text fmt d :
  parse_matched y text fmt = Some d -> Strptime.valid_datetime d = true.
Proof.
  unfold parse_matched.
  destruct (String.eqb fmt "%b %d %H:%M:%S"); apply strptime_valid.
Qed.

(** X5: a timestamp that [detect_timestamp] returns is a date and time
    of the calendar: the year is between 1 and 9999, the month between 1
    and 12, the day between 1 and the number of days of that month in that
    year, and the time of day between 00:00:00 and 23:59:59. *)
Theorem detect_timestamp_valid y line d residual :
  detect_timestamp y line = (Some d, residual) ->
  (1 <= year d <= 9999)%Z /\ (1 <= month d <= 12)%Z /\
  (1 <= day d <= Strptime.days_in_month (year d) (month d))%Z /\
  (Strptime.days_in_month (year d) (month d) <= 31)%Z /\
  (0 <= hour d <= 23)%Z /\ (0 <= minute d <= 59)%Z /\ (0 <= second d <= 59)%Z.
Proof.
  intros H. apply ParserProps.detect_timestamp_in_some in H.
  destruct H as (p & f & m & _ & _ & Hp & _).
  apply parse_matched_valid in Hp. unfold Strptime.valid_datetime in Hp.
  repeat match type of Hp with
         | (_ && _) = true => apply andb_true_iff in Hp; destruct Hp as [Hp ?]
         end.
  repeat match goal with
         | H : (_ <=? _)%Z = true |- _ => apply Z.leb_le in H
         end.
  assert (Hdim : (Strptime.days_in_month (year d) (month d) <= 31)%Z).
  { unfold Strptime.days_in_month.
    destruct (month d =? 2)%Z; [destruct (Strptime.is_leap (year d)); lia |].
    destruct ((month d =? 4) || (month d =? 6) || (month d =? 9) || (month d =? 11))%Z;
      lia. }
  repeat split; assumption.
Qed.

Lemma detect_timestamp_valid_witness :
  detect_timestamp 2026 "2024-02-29 23:59:59 INFO leap day"
  = (Some (DateTime 2024 2 29 23 59 59 0), "INFO leap day") /\
  (1 <= 29 <= Strptime.days_in_month 2024 2)%Z.
Proof.
  assert (H : detect_timestamp 2026 "2024-02-29 23:59:59 INFO leap day"
              = (Some (DateTime 2024 2 29 23 59 59 0), "INFO leap day"))
    by (vm_compute; reflexivity).
  split; [exact H |].
  exact (proj1 (proj2 (proj2 (detect_timestamp_valid 2026 _ _ _ H)))).
Defined.

(** The format of the sixth pattern, cut to 19 characters, ends in a
    stray [%]: [strptime] refuses it whatever the text. *)
Lemma millisecond_format_refused y text :
  parse_matched y text "%Y-%m-%d %H:%M:%S.%f" = None.
Proof.
  unfold parse_matched.
  destruct (PyStr.contains_char "T" text); cbn [String.eqb Ascii.eqb];
    unfold Strptime.strptime;
    change (Strptime.pattern false (PyStr.take 19 "%Y-%m-%d %H:%M:%S.%f"))
      with (@None Re.regex); reflexivity.
Qed.

Lemma detect_timestamp_in_app pats1 pats2 y line :
  detect_timestamp_in (pats1 ++ pats2) y line
  = match fst (detect_timestamp_in pats1 y line) with
    | Some _ => detect_timestamp_in pats1 y line
    | None => detect_timestamp_in pats2 y line
    end.
Proof.
  induction pats1 as [| [p f] pats1 IH]; cbn [app detect_timestamp_in fst];
    [reflexivity |].
  destruct (Re.search p line) as [m |]; [| exact IH].
  destruct (parse_matched y (group1 line m) f); [reflexivity | exact IH].
Qed.

(** X6: the sixth timestamp pattern (a date and time with
    milliseconds) never gives a timestamp: [detect_timestamp] returns what
    the first five patterns alone return. *)
Theorem millisecond_pattern_is_dead y line :
  detect_timestamp y line
  = detect_timestamp_in (firstn 5 timestamp_patterns) y line.
Proof.
  unfold detect_timestamp.
  rewrite <- (firstn_skipn 5 timestamp_patterns) at 1.
  rewrite detect_timestamp_in_app.
  destruct (fst (detect_timestamp_in (firstn 5 timestamp_patterns) y line)) eqn:E;
    [reflexivity |].
  rewrite (surjective_pairing (detect_timestamp_in (firstn 5 timestamp_patterns) y line)).
  rewrite E, (ParserProps.detect_timestamp_in_none _ _ _ E).
  change (skipn 5 timestamp_patterns)
    with [(fst (nth 5 timestamp_patterns (Re.Eps, EmptyString)),
           "%Y-%m-%d %H:%M:%S.%f")].
  cbn [detect_timestamp_in].
  destruct (Re.search _ line) as [m |]; [| reflexivity].
  now rewrite millisecond_format_refused.
Qed.

(** *** Lines and configuration *)

Lemma lstrip_all_space s : PyStr.lstrip s = EmptyString <-> all_space s = true.
Proof.
  induction s as [| c s IH]; cbn; [tauto |].
  destruct (PyStr.is_space c); cbn; [exact IH |]. split; discriminate.
Qed.

Lemma rstrip_all_space s : PyStr.rstrip s = EmptyString <-> all_space s = true.
Proof.
  induction s as [| c s IH]; cbn; [tauto |].
  destruct (PyStr.rstrip s) eqn:E.
  - destruct (PyStr.is_space c); cbn; [tauto |]. split; discriminate.
  - split; [discriminate |]. intros H. apply andb_true_iff in H.
    destruct H as [_ H]. apply IH in H. discriminate.
Qed.

Lemma lstrip_keeps_rest s : all_space s = false -> all_space (PyStr.lstrip s) = false.
Proof.
  induction s as [| c s IH]; cbn; [discriminate |].
  destruct (PyStr.is_space c) eqn:E; cbn; [exact IH |]. now rewrite E.
Qed.

Lemma strip_all_space s : PyStr.strip s = EmptyString <-> all_space s = true.
Proof.
  unfold PyStr.strip. rewrite rstrip_all_space. split.
  - intros H. destruct (all_space s) eqn:E; [reflexivity |].
    apply lstrip_keeps_rest in E. congruence.
  - intros H. apply lstrip_all_space in H. now rewrite H.
Qed.

(** X7: [parse_line] gives no record exactly for the lines that are
    empty or made of white space only; for every other line the record
    under any configuration is the record under the default configuration
    with [has_error] set to [is_error_strict or (is_warning and the flag)],
    so the flag changes nothing else and can only raise [has_error]. *)
Theorem parse_line_configuration w y line path n :
  (parse_line (Config w) y line path n = None <-> all_space line = true) /\
  parse_line (Config w) y line path n
  = option_map (fun r => with_has_error (is_error_strict r || (is_warning r && w)) r)
               (parse_line (Config false) y line path n) /\
  (forall r, parse_line (Config false) y line path n = Some r ->
             has_error r = is_error_strict r).
Proof.
  unfold parse_line.
  destruct (PyStr.truthy (PyStr.strip line)) eqn:Et; cbn [negb].
  - destruct (detect_timestamp y (PyStr.strip line)) as [ts after_ts].
    destruct (extract_log_level after_ts) as [lvl after_lvl].
    generalize (classify_error (PyStr.strip line)) as cats.
    generalize (existsb (fun p => searches p (PyStr.strip line)) warning_patterns)
      as phrase.
    generalize (extract_transaction_id (PyStr.strip line)) as tid.
    intros tid phrase cats.
    cbn [treat_warnings_as_errors option_map].
    unfold with_has_error.
    cbn [timestamp log_level message original_line error_categories transaction_id
         file_path line_number is_warning is_error_strict has_error].
    rewrite !andb_false_r, !orb_false_r.
    split; [| split].
    + split; [discriminate |]. intros H. apply strip_all_space in H.
      rewrite H in Et. discriminate.
    + reflexivity.
    + intros r H. inversion H; subst. reflexivity.
  - split; [| split].
    + split; [intros _ | reflexivity]. apply strip_all_space.
      destruct (PyStr.strip line); [reflexivity | discriminate].
    + reflexivity.
    + discriminate.
Qed.

(** *** Files *)

Lemma parse_line_some cfg y line path n r :
  parse_line cfg y line path n = Some r ->
  file_path r = path /\ line_number r = n /\
  original_line r = PyStr.strip line /\ PyStr.strip line <> EmptyString.
Proof.
  unfold parse_line.
  destruct (PyStr.truthy (PyStr.strip line)) eqn:Et; cbn [negb]; [| discriminate].
  destruct (detect_timestamp y (PyStr.strip line)) as [ts after_ts].
  destruct (extract_log_level after_ts) as [lvl after_lvl].
  intros H. inversion H; subst.
  cbn [file_path line_number original_line]. repeat split.
  intros E. rewrite E in Et. discriminate.
Qed.

Lemma parse_lines_from_in cfg y path n lines r :
  In r (parse_lines_from cfg y path n lines) <->
  exists i line,
    nth_error lines i = Some line /\
    parse_line cfg y line path (n + Z.of_nat i) = Some r.
Proof.
  revert n. induction lines as [| l lines IH]; intros n.
  - cbn. split; [intros [] |]. intros ([| i] & line & H & _); discriminate.
  - cbn [parse_lines_from].
    assert (Hrest : In r (parse_lines_from cfg y path (n + 1) lines) <->
                    exists i line, nth_error (l :: lines) (S i) = Some line /\
                                   parse_line cfg y line path (n + Z.of_nat (S i)) = Some r).
    { rewrite IH. split; intros (i & line & H1 & H2); exists i, line;
        (split; [exact H1 |]);
        [replace (n + Z.of_nat (S i))%Z with (n + 1 + Z.of_nat i)%Z by lia
        | replace (n + 1 + Z.of_nat i)%Z with (n + Z.of_nat (S i))%Z by lia];
        exact H2. }
    destruct (parse_line cfg y l path n) as [r0 |] eqn:E.
    + cbn [In]. rewrite Hrest. split.
      * intros [<- | (i & line & H1 & H2)].
        -- exists 0%nat, l. split; [reflexivity |]. now rewrite Z.add_0_r.
        -- now exists (S i), line.
      * intros ([| i] & line & H1 & H2).
        -- cbn in H1. inversion H1; subst. rewrite Z.add_0_r in H2. left. congruence.
        -- right. now exists i, line.
    + rewrite Hrest. split.
      * intros (i & line & H1 & H2). now exists (S i), line.
      * intros ([| i] & line & H1 & H2).
        -- cbn in H1. inversion H1; subst. rewrite Z.add_0_r in H2. congruence.
        -- now exists i, line.
Qed.

Lemma parse_lines_from_sorted cfg y path n lines :
  StronglySorted (fun a b => (line_number a < line_number b)%Z)
                 (parse_lines_from cfg y path n lines) /\
  Forall (fun r => (n <= line_number r)%Z) (parse_lines_from cfg y path n lines).
Proof.
  revert n. induction lines as [| l lines IH]; intros n; cbn [parse_lines_from].
  - split; constructor.
  - destruct (IH (n + 1)%Z) as [IH1 IH2].
    assert (Hge : Forall (fun r => (n <= line_number r)%Z)
                         (parse_lines_from cfg y path (n + 1) lines)).
    { eapply Forall_impl; [| exact IH2]. cbn. intros; lia. }
    destruct (parse_line cfg y l path n) as [r0 |] eqn:E; [| now split].
    apply parse_line_some in E. destruct E as (_ & Hn & _).
    split.
    + constructor; [exact IH1 |].
      eapply Forall_impl; [| exact IH2]. cbn. intros; lia.
    + constructor; [lia | exact Hge].
Qed.

Lemma parse_lines_from_length cfg y path n lines :
  (length (parse_lines_from cfg y path n lines) <= length lines)%nat.
Proof.
  revert n. induction lines as [| l lines IH]; intros n; cbn [parse_lines_from length];
    [lia |].
  specialize (IH (n + 1)%Z).
  destruct (parse_line cfg y l path n); cbn [length]; lia.
Qed.

Lemma nth_error_firstn_some {A : Type} (c i : nat) (l : list A) (x : A) :
  nth_error (firstn c l) i = Some x -> nth_error l i = Some x /\ (i < c)%nat.
Proof.
  revert c l. induction i as [| i IH]; intros [| c] [| a l] H; cbn in *;
    try discriminate.
  - split; [exact H | lia].
  - apply IH in H. split; [tauto | lia].
Qed.

(** X8: the records of a file come in the order of its lines: their
    line numbers increase strictly, and each record carries the path of the
    file and the 1-based number of a line that was read, whose text with
    the white space around it removed is the record's [original_line] and
    is not empty; under a cap that is not zero no line number exceeds the
    cap.  There are at most as many records as lines. *)
Theorem parse_file_line_numbers cfg y fs path cap :
  let lines := lines_read (fs path) in
  let rs := records_of (parse_file cfg y fs path cap) in
  StronglySorted (fun a b => (line_number a < line_number b)%Z) rs /\
  (length rs <= length lines)%nat /\
  forall r, In r rs ->
    file_path r = path /\
    (1 <= line_number r <= Z.of_nat (length lines))%Z /\
    (forall k, cap = Some k -> k <> 0%Z -> (line_number r <= k)%Z) /\
    exists line,
      nth_error lines (Z.to_nat (line_number r - 1)) = Some line /\
      original_line r = PyStr.strip line /\ original_line r <> EmptyString.
Proof.
  cbn zeta. rewrite ParserProps.parse_file_returns. cbn [records_of].
  unfold records_read. set (lines := lines_read (fs path)).
  split; [apply parse_lines_from_sorted |]. split.
  - etransitivity; [apply parse_lines_from_length |]. rewrite length_firstn. lia.
  - intros r Hr. apply parse_lines_from_in in Hr.
    destruct Hr as (i & line & Hnth & Hp).
    apply nth_error_firstn_some in Hnth. destruct Hnth as [Hnth Hi].
    apply parse_line_some in Hp. destruct Hp as (Hpath & Hn & Ho & Hne).
    assert (Hlen : (i < length lines)%nat).
    { apply nth_error_Some. congruence. }
    split; [exact Hpath |]. split; [lia |]. split.
    + intros k -> Hk. unfold cap_lines in Hi.
      destruct (Z.eqb_spec k 0) as [| _]; [contradiction |]. lia.
    + exists line. rewrite Hn.
      replace (Z.to_nat (1 + Z.of_nat i - 1)) with i by lia.
      split; [exact Hnth |]. split; [exact Ho | congruence].
Qed.

(** X9: with a positive worker count [parse_files_parallel] returns a
    list in which every record names one of the submitted paths and is one
    of the records that [parse_file] gives for the path it names; no path
    gives no record, and when every future completes once the number of
    records is the sum of the numbers per path.  A worker count that is not
    positive raises [ValueError] whatever the files. *)
Theorem parse_files_parallel_provenance cfg y fs paths workers cap completion :
  (0 < workers)%Z ->
  exists all_parsed_lines,
    parse_files_parallel cfg y fs paths workers cap completion
    = Returned all_parsed_lines /\
    (forall r, In r all_parsed_lines ->
               In (file_path r) paths /\
               In r (records_of (parse_file cfg y fs (file_path r) cap))) /\
    (paths = [] -> all_parsed_lines = []) /\
    (Permutation completion (seq 0 (length paths)) ->
     length all_parsed_lines
     = list_sum (map (fun path => record_count cfg y fs path cap) paths)) /\
    (forall w, (w <= 0)%Z ->
               parse_files_parallel cfg y fs paths w cap completion
               = Raised ValueError).
Proof.
  intros Hw. eexists. split; [now apply ParserProps.parse_files_parallel_merge |].
  assert (Hin : forall r,
             In r (flat_map (contribution cfg y fs paths cap) completion) ->
             In (file_path r) paths /\
             In r (records_of (parse_file cfg y fs (file_path r) cap))).
  { intros r Hr. apply in_flat_map in Hr. destruct Hr as (i & _ & Hr).
    unfold contribution in Hr.
    destruct (nth_error paths i) as [path |] eqn:E; [| contradiction].
    assert (Hp : file_path r = path).
    { unfold records_read in Hr. apply parse_lines_from_in in Hr.
      destruct Hr as (j & line & _ & Hp). now apply parse_line_some in Hp. }
    rewrite Hp. split; [now apply nth_error_In in E |].
    now rewrite ParserProps.parse_file_returns. }
  split; [exact Hin |]. split; [| split].
  - intros ->.
    match goal with |- ?x = _ => destruct x as [| r l] eqn:E end; [reflexivity |].
    destruct (Hin r) as [[] _]. now left.
  - intros Hperm.
    rewrite (Permutation_length
               (Permutation_flat_map (contribution cfg y fs paths cap) Hperm)).
    rewrite ParserProps.contributions_in_order, length_flat_map. f_equal.
    apply map_ext. intros path. now rewrite ParserProps.record_count_eq.
  - intros w Hle. unfold parse_files_parallel.
    destruct (Z.leb_spec w 0); [reflexivity | lia].
Qed.

Lemma parse_files_parallel_provenance_witness :
  (0 < 2)%Z /\
  exists all_parsed_lines,
    parse_files_parallel default_config 2026 failing_fs
      ["good.log"; "broken.log"] 2 None [1; 0]%nat
    = Returned all_parsed_lines /\
    length all_parsed_lines = 3%nat /\
    forall r, In r all_parsed_lines -> In (file_path r) ["good.log"; "broken.log"].
Proof.
  assert (Hw : (0 < 2)%Z) by lia.
  split; [exact Hw |].
  destruct (parse_files_parallel_provenance default_config 2026 failing_fs
              ["good.log"; "broken.log"] 2 None [1; 0]%nat Hw)
    as (all & Hall & Hin & _ & Hlen & _).
  exists all. split; [exact Hall |]. split.
  - rewrite Hlen; [reflexivity |]. cbn. apply perm_swap.
  - intros r Hr. now apply Hin.
Defined.

End ParserMoreProps.

(** ** Properties of the matcher *)

Module RegexProps.
Import Re RegexSpec.

(** A successful run follows a path of [steps] to the state that the
    continuation accepted. *)
Lemma run_sound {A : Type} (r : regex) :
  forall (st : mstate) (k : mstate -> option A) (x : A),
    run r st k = Some x -> exists st', steps r st st' /\ k st' = Some x.
Proof.
  induction r as [| p | a IHa b IHb | a IHa b IHb | a IHa | a IHa | g a IHa |];
    intros st k x H; cbn [run] in H.
  - exists st. split; [constructor | exact H].
  - destruct (rest st) as [| c t] eqn:E; [discriminate |].
    destruct (p c) eqn:Ep; [| discriminate].
    exists (advance c t st). split; [now constructor | exact H].
  - apply IHa in H. destruct H as (st1 & H1 & H).
    apply IHb in H. destruct H as (st2 & H2 & H).
    exists st2. split; [econstructor; eassumption | exact H].
  - destruct (run a st k) as [y |] eqn:E.
    + inversion H; subst. apply IHa in E. destruct E as (st' & H1 & H2).
      exists st'. split; [now apply steps_alt_l | exact H2].
    + apply IHb in H. destruct H as (st' & H1 & H2).
      exists st'. split; [now apply steps_alt_r | exact H2].
  - destruct (run a st k) as [y |] eqn:E.
    + inversion H; subst. apply IHa in E. destruct E as (st' & H1 & H2).
      exists st'. split; [now apply steps_opt_some | exact H2].
    + exists st. split; [apply steps_opt_none | exact H].
  - assert (Hloop : forall fuel s,
               (fix loop (fuel : nat) (s : mstate) {struct fuel} : option A :=
                  match fuel with
                  | O => k s
                  | S f =>
                      match run a s (fun s' => if (pos s <? pos s')%nat
                                               then loop f s' else None) with
                      | Some x => Some x
                      | None => k s
                      end
                  end) fuel s = Some x ->
               exists st', steps (Star a) s st' /\ k st' = Some x).
    { induction fuel as [| fuel IHf]; intros s Hs.
      - exists s. split; [apply steps_star_stop | exact Hs].
      - match type of Hs with
        | match ?e with _ => _ end = _ => destruct e as [y |] eqn:E
        end.
        + inversion Hs; subst. apply IHa in E. destruct E as (st1 & H1 & H2).
          destruct (pos s <? pos st1)%nat; [| discriminate].
          apply IHf in H2. destruct H2 as (st' & H3 & H4).
          exists st'. split; [eapply steps_star_more; eassumption | exact H4].
        + exists s. split; [apply steps_star_stop | exact Hs]. }
    exact (Hloop (S (String.length (rest st))) st H).
  - apply IHa in H. destruct H as (st' & H1 & H2).
    exists (set_cap g (pos st) (pos st') st'). split; [now constructor | exact H2].
  - destruct (at_boundary st) eqn:E; [| discriminate].
    exists st. split; [now constructor | exact H].
Qed.

(** *** Text *)

Lemma string_append_length w s :
  String.length (w ++ s)%string = (String.length w + String.length s)%nat.
Proof. induction w as [| c w IH]; cbn; [reflexivity | now rewrite IH]. Qed.

Lemma string_append_assoc u v w : ((u ++ v) ++ w = u ++ (v ++ w))%string.
Proof. induction u as [| c u IH]; cbn; [reflexivity | now rewrite IH]. Qed.

Lemma drop_app_length w s : PyStr.drop (String.length w) (w ++ s)%string = s.
Proof. induction w as [| c w IH]; cbn; [now destruct s | exact IH]. Qed.

Lemma take_app_length w s : PyStr.take (String.length w) (w ++ s)%string = w.
Proof. induction w as [| c w IH]; cbn; [now destruct s | now rewrite IH]. Qed.

Lemma drop_add a b s : PyStr.drop (a + b) s = PyStr.drop b (PyStr.drop a s).
Proof.
  revert s. induction a as [| a IH]; intros s; cbn.
  - now destruct s.
  - destruct s as [| c s]; [now destruct b | apply IH].
Qed.

Lemma drop_next p line c t :
  PyStr.drop p line = String c t -> PyStr.drop (S p) line = t.
Proof.
  intros H. replace (S p) with (p + 1)%nat by lia. rewrite drop_add, H. now destruct t.
Qed.

(** A path consumes a piece of the text, moves the position by its length
    and stays in the subject. *)
Lemma steps_consume r st st' :
  steps r st st' ->
  exists w, rest st = (w ++ rest st')%string /\
            pos st' = (pos st + String.length w)%nat.
Proof.
  induction 1 as [st | p c t st E Hp | a b st st1 st2 _ IH1 _ IH2
                  | a b st st' _ IH | a b st st' _ IH | a st st' _ IH | a st
                  | a st | a st st1 st2 _ IH1 _ IH2 | g a st st' _ IH | st Hb].
  - exists EmptyString. cbn. split; [reflexivity | lia].
  - exists (String c EmptyString). cbn. split; [exact E | lia].
  - destruct IH1 as (w1 & E1 & P1), IH2 as (w2 & E2 & P2).
    exists (w1 ++ w2)%string. rewrite E1, E2, P2, P1, string_append_length.
    split; [now rewrite string_append_assoc | lia].
  - exact IH.
  - exact IH.
  - exact IH.
  - exists EmptyString. cbn. split; [reflexivity | lia].
  - exists EmptyString. cbn. split; [reflexivity | lia].
  - destruct IH1 as (w1 & E1 & P1), IH2 as (w2 & E2 & P2).
    exists (w1 ++ w2)%string. rewrite E1, E2, P2, P1, string_append_length.
    split; [now rewrite string_append_assoc | lia].
  - destruct IH as (w & E & P). exists w. cbn. split; assumption.
  - exists EmptyString. cbn. split; [reflexivity | lia].
Qed.

Lemma steps_anchored line r st st' :
  anchored line st -> steps r st st' -> anchored line st'.
Proof.
  unfold anchored. intros Ha Hs. destruct (steps_consume _ _ _ Hs) as (w & E & P).
  rewrite P, drop_add, <- Ha, E. symmetry. apply drop_app_length.
Qed.

(** The text of a group that a path has just closed. *)
Lemma closed_group_text line g a st st' :
  anchored line st -> steps a st st' ->
  exists w,
    rest st = (w ++ rest st')%string /\
    group g line (Match 0 0 (caps (set_cap g (pos st) (pos st') st'))) = Some w.
Proof.
  intros Ha Hs. destruct (steps_consume _ _ _ Hs) as (w & E & P).
  exists w. split; [exact E |].
  unfold group. cbn. rewrite Nat.eqb_refl. f_equal.
  unfold PyStr.slice. rewrite <- Ha, E, P.
  replace (pos st + String.length w - pos st)%nat with (String.length w) by lia.
  apply take_app_length.
Qed.

(** A match that [search] returns starts at a position of the subject
    and follows a path from there. *)
Lemma search_from_sound r line :
  forall s p pv m,
    s = PyStr.drop p line ->
    search_from r p pv s = Some m ->
    exists st0 st',
      anchored line st0 /\ steps r st0 st' /\
      m_start m = pos st0 /\ m_end m = pos st' /\ m_caps m = caps st'.
Proof.
  induction s as [| c t IH]; intros p pv m Hs H; cbn [search_from] in H;
    unfold match_here in H;
    match type of H with
    | match ?e with _ => _ end = _ => destruct e as [m0 |] eqn:E
    end; try discriminate.
  - inversion H; subst. apply run_sound in E. destruct E as (st' & H1 & H2).
    inversion H2; subst. eexists. exists st'.
    split; [| split; [exact H1 | cbn; repeat split]].
    unfold anchored. cbn. exact Hs.
  - inversion H; subst. apply run_sound in E. destruct E as (st' & H1 & H2).
    inversion H2; subst. eexists. exists st'.
    split; [| split; [exact H1 | cbn; repeat split]].
    unfold anchored. cbn. exact Hs.
  - apply (IH (S p) (Some c) m); [| exact H].
    symmetry. apply (drop_next p line c t). now symmetry.
Qed.

Lemma search_sound r line m :
  search r line = Some m ->
  exists st0 st',
    anchored line st0 /\ steps r st0 st' /\
    m_start m = pos st0 /\ m_end m = pos st' /\ m_caps m = caps st'.
Proof.
  apply search_from_sound. now destruct line.
Qed.

(** *** Pieces of the patterns *)

Lemma group_text line g st st' w :
  anchored line st ->
  rest st = (w ++ rest st')%string ->
  pos st' = (pos st + String.length w)%nat ->
  forall m, m_caps m = caps (set_cap g (pos st) (pos st') st') ->
            group g line m = Some w.
Proof.
  intros Ha E P m Hm. unfold group. rewrite Hm. cbn. rewrite Nat.eqb_refl. f_equal.
  unfold PyStr.slice. rewrite <- Ha, E, P.
  replace (pos st + String.length w - pos st)%nat with (String.length w) by lia.
  apply take_app_length.
Qed.



Lemma steps_star_cls p st st' :
  steps (Star (Cls p)) st st' ->
  exists w, rest st = (w ++ rest st')%string /\
            pos st' = (pos st + String.length w)%nat /\
            all_chars p w = true.
Proof.
  intros H. remember (Star (Cls p)) as r eqn:Er.
  induction H as [| | | | | | | a st | a st st1 st2 H1 _ H2 IH2 | |];
    try discriminate.
  - exists EmptyString. cbn. repeat split; lia.
  - inversion Er; subst. destruct (IH2 eq_refl) as (w & E & P & Hall).
    inversion H1; subst. exists (String c w).
    cbn in *. rewrite P. repeat split; [congruence | lia |].
    now rewrite Hall, andb_true_r.
Qed.

Lemma steps_plus_cls p st st' :
  steps (plus (Cls p)) st st' ->
  exists w, rest st = (w ++ rest st')%string /\
            pos st' = (pos st + String.length w)%nat /\
            w <> EmptyString /\ all_chars p w = true.
Proof.
  unfold plus. intros H.
  inversion H as [| | a b s0 s1 s2 H1 H2 | | | | | | | |]; subst.
  inversion H1; subst. apply steps_star_cls in H2.
  destruct H2 as (w & E & P & Hall).
  exists (String c w). cbn in *. rewrite P.
  repeat split; [congruence | lia | discriminate |].
  now rewrite Hall, andb_true_r.
Qed.



End RegexProps.

(** ** Properties of the extracted fields *)

Module FieldProps.
Import Re RegexSpec RegexProps LogParser.





Lemma id_pattern_match key line m :
  search (id_pattern key) line = Some m ->
  group1 line m <> EmptyString /\ all_chars id_char (group1 line m) = true.
Proof.
  intros H. apply search_sound in H.
  destruct H as (st0 & st' & Ha & Hs & _ & _ & Hcaps).
  unfold id_pattern in Hs. cbn [seq] in Hs.
  inversion Hs as [| | a b s0 s1 s2 H1 H2 | | | | | | | |]; subst.
  assert (A1 := steps_anchored line _ _ _ Ha H1).
  inversion H2 as [| | a b s0 s2' s3 H3 H4 | | | | | | | |]; subst.
  assert (A2 := steps_anchored line _ _ _ A1 H3).
  inversion H4 as [| | a b s0 s3' s4 H5 H6 | | | | | | | |]; subst.
  assert (A3 := steps_anchored line _ _ _ A2 H5).
  inversion H6 as [| | a b s0 s4' s5 H7 H8 | | | | | | | |]; subst.
  assert (A4 := steps_anchored line _ _ _ A3 H7).
  inversion H8 as [| | | | | | | | | g a s0 s6 H9 |]; subst.
  apply (steps_plus_cls id_char) in H9. destruct H9 as (w & E & P & Hne & Hall).
  assert (Hg : group 1 line m = Some w).
  { eapply group_text; [exact A4 | exact E | exact P | exact Hcaps]. }
  unfold group1. rewrite Hg. split; [exact Hne | exact Hall].
Qed.

(** An id that is returned is the first group of a match of one of the
    id patterns. *)
Lemma extract_transaction_id_match line tid :
  extract_transaction_id line = Some tid ->
  exists key m, search (id_pattern key) line = Some m /\ tid = group1 line m.
Proof.
  unfold extract_transaction_id, transaction_patterns.
  generalize ["transaction"; "txn"; "order"; "ref"] as keys.
  induction keys as [| key keys IH]; cbn [map extract_transaction_id_in];
    [discriminate |].
  destruct (search (id_pattern key) line) as [m |] eqn:E; [| exact IH].
  intros H. inversion H; subst. now exists key, m.
Qed.

(** X11: a transaction id that [extract_transaction_id] returns is
    never empty and is made of letters, digits, [-] and [_] only. *)
Theorem extract_transaction_id_charset line tid :
  extract_transaction_id line = Some tid ->
  tid <> EmptyString /\ all_chars id_char tid = true.
Proof.
  intros H. apply extract_transaction_id_match in H.
  destruct H as (key & m & Hm & ->). now apply (id_pattern_match key).
Qed.

Lemma extract_transaction_id_charset_witness :
  extract_transaction_id "payment failed for Order_ID: A-17_b now" = Some "A-17_b" /\
  "A-17_b" <> EmptyString /\ all_chars id_char "A-17_b" = true.
Proof.
  assert (H : extract_transaction_id "payment failed for Order_ID: A-17_b now"
              = Some "A-17_b") by (vm_compute; reflexivity).
  split; [exact H |].
  exact (extract_transaction_id_charset _ _ H).
Defined.

End FieldProps.

(** ** More properties of the analyzer *)

Module AnalyzerMoreProps.
Import DataAnalyzer AnalyzerSpec AnalyzerMoreSpec.

(** *** The window *)

Lemma day_floor (t : Timestamp) :
  floor_to day_ns t = (t / day_ns * (24 * hour_ns))%Z /\
  (floor_to day_ns t <= t < floor_to day_ns t + day_ns)%Z.
Proof.
  unfold floor_to.
  assert (Hd : (day_ns = 24 * hour_ns)%Z) by reflexivity.
  assert (Hpos : (0 < day_ns)%Z) by reflexivity.
  pose proof (Z.div_mod t day_ns ltac:(lia)) as Hdm.
  pose proof (Z.mod_pos_bound t day_ns Hpos) as Hb.
  rewrite <- Hd. split; lia.
Qed.

(** X12: whatever the target date, the window of the analyzer runs from
    09:00 to 14:00 of the day of the target date: it is five hours long,
    both ends lie in that day, they print as [09:00] and [14:00], and the
    start is the start of a 5-minute bucket. *)
Theorem analysis_window (target : Timestamp) (enabled : bool) :
  let a := init target enabled in
  (end_time a - start_time a = 5 * hour_ns)%Z /\
  (start_time a < end_time a)%Z /\
  (floor_to day_ns target <= target < floor_to day_ns target + day_ns)%Z /\
  floor_to day_ns (start_time a) = floor_to day_ns target /\
  floor_to day_ns (end_time a) = floor_to day_ns target /\
  strftime_HM (start_time a) = "09:00" /\
  strftime_HM (end_time a) = "14:00" /\
  floor_to (5 * minute_ns) (start_time a) = start_time a /\
  time_filter_enabled a = enabled.
Proof.
  cbn zeta. unfold init. cbn [start_time end_time time_filter_enabled].
  destruct (day_floor target) as [Hm Hb]. set (q := (target / day_ns)%Z) in *.
  assert (Hh : (0 < hour_ns)%Z) by reflexivity.
  assert (Hmin : (hour_ns = 60 * minute_ns)%Z) by reflexivity.
  assert (Hmn : (0 < minute_ns)%Z) by reflexivity.
  assert (Hday : (day_ns = 24 * hour_ns)%Z) by reflexivity.
  assert (Hfloor : forall k, (0 <= k < 24)%Z ->
             floor_to day_ns (floor_to day_ns target + k * hour_ns)%Z
             = floor_to day_ns target).
  { intros k Hk. rewrite Hm at 1. unfold floor_to at 1.
    replace (q * (24 * hour_ns) + k * hour_ns)%Z
      with (k * hour_ns + q * day_ns)%Z by (rewrite Hday; lia).
    rewrite Z_mod_plus_full, Z.mod_small
      by (unfold day_ns, hour_ns, minute_ns, second_ns; lia).
    rewrite Hm, Hday. lia. }
  assert (Hprint : forall k, (0 <= k < 24)%Z ->
             strftime_HM (floor_to day_ns target + k * hour_ns)%Z
             = (two_digits k ++ ":" ++ two_digits 0)%string).
  { intros k Hk. unfold strftime_HM. rewrite Hm.
    replace (q * (24 * hour_ns) + k * hour_ns)%Z
      with ((q * 24 + k) * hour_ns)%Z by lia.
    rewrite Z.div_mul by lia.
    replace ((q * 24 + k) * hour_ns)%Z
      with ((q * 24 + k) * 60 * minute_ns)%Z by (rewrite Hmin; lia).
    rewrite Z.div_mul by lia.
    rewrite Z.mod_mul by lia.
    replace (q * 24 + k)%Z with (k + q * 24)%Z by lia.
    rewrite Z_mod_plus_full, Z.mod_small by lia. reflexivity. }
  split; [lia |]. split; [lia |]. split; [exact Hb |].
  split; [apply (Hfloor 9%Z); lia |]. split; [apply (Hfloor 14%Z); lia |].
  split; [apply (Hprint 9%Z); lia |]. split; [apply (Hprint 14%Z); lia |].
  split; [| reflexivity].
  unfold floor_to at 1. rewrite Hm.
  replace (q * (24 * hour_ns) + 9 * hour_ns)%Z
    with ((q * 288 + 108) * (5 * minute_ns))%Z by (rewrite Hmin; lia).
  rewrite Z.mod_mul by lia. lia.
Qed.

(** *** Groups that do not overlap *)

Lemma list_sum_cons (x : nat) (l : list nat) :
  list_sum (x :: l) = (x + list_sum l)%nat.
Proof. reflexivity. Qed.

Lemma list_sum_zero {K : Type} (f : K -> nat) (ks : list K) :
  (forall k, In k ks -> f k = 0%nat) -> list_sum (map f ks) = 0%nat.
Proof.
  induction ks as [| k ks IH]; intros H; [reflexivity |].
  cbn [map]. rewrite list_sum_cons, (H k (or_introl eq_refl)), IH; [reflexivity |].
  intros k' Hk'. apply H. now right.
Qed.

Lemma list_sum_add {K : Type} (f g : K -> nat) (ks : list K) :
  list_sum (map (fun k => (f k + g k)%nat) ks)
  = (list_sum (map f ks) + list_sum (map g ks))%nat.
Proof.
  induction ks as [| k ks IH]; [reflexivity |].
  cbn [map]. rewrite !list_sum_cons, IH. lia.
Qed.


Lemma list_sum_firstn (n : nat) (l : list nat) :
  (list_sum (firstn n l) <= list_sum l)%nat.
Proof.
  rewrite <- (firstn_skipn n l) at 2. rewrite list_sum_app. lia.
Qed.

Section Groups.
Context {K A : Type} (sel : K -> A -> bool).
Hypothesis sel_disjoint :
  forall k k' a, sel k a = true -> sel k' a = true -> k = k'.

Lemma one_group_per_row (ks : list K) (a : A) :
  NoDup ks ->
  (list_sum (map (fun k => if sel k a then 1 else 0)%nat ks) <= 1)%nat.
Proof.
  induction 1 as [| k ks Hnin Hnd IH]; [cbn; lia |].
  cbn [map]. rewrite list_sum_cons.
  destruct (sel k a) eqn:E; [| lia].
  rewrite list_sum_zero; [lia |].
  intros k' Hk'. destruct (sel k' a) eqn:E'; [| reflexivity].
  exfalso. apply Hnin. now rewrite (sel_disjoint k k' a E E').
Qed.

(** The groups of distinct keys hold together at most all the rows. *)
Lemma groups_bound (ks : list K) (rows : list A) :
  NoDup ks ->
  (list_sum (map (fun k => length (filter (sel k) rows)) ks) <= length rows)%nat.
Proof.
  intros Hnd. induction rows as [| a rows IH].
  - rewrite list_sum_zero; [cbn; lia | reflexivity].
  - rewrite (map_ext _ (fun k => ((if sel k a then 1 else 0)
                                  + length (filter (sel k) rows))%nat)).
    + rewrite list_sum_add. pose proof (one_group_per_row ks a Hnd). cbn [length]. lia.
    + intros k. cbn [filter]. destruct (sel k a); reflexivity.
Qed.
Lemma one_group_of_row (ks : list K) (a : A) :
  NoDup ks -> (exists k, In k ks /\ sel k a = true) ->
  list_sum (map (fun k => if sel k a then 1 else 0)%nat ks) = 1%nat.
Proof.
  induction 1 as [| k ks Hnin Hnd IH]; intros (k0 & Hin & Hs); [contradiction |].
  cbn [map]. rewrite list_sum_cons.
  destruct (sel k a) eqn:E.
  - rewrite list_sum_zero; [lia |].
    intros k' Hk'. destruct (sel k' a) eqn:E'; [| reflexivity].
    exfalso. apply Hnin. now rewrite (sel_disjoint k k' a E E').
  - destruct Hin as [-> | Hin]; [congruence |].
    rewrite IH; [lia |]. now exists k0.
Qed.

(** When every row has its key among the distinct keys, the groups hold
    together exactly all the rows. *)
Lemma groups_cover (ks : list K) (rows : list A) :
  NoDup ks ->
  (forall a, In a rows -> exists k, In k ks /\ sel k a = true) ->
  list_sum (map (fun k => length (filter (sel k) rows)) ks) = length rows.
Proof.
  intros Hnd. induction rows as [| a rows IH]; intros Hcov.
  - rewrite list_sum_zero; [reflexivity | reflexivity].
  - rewrite (map_ext _ (fun k => ((if sel k a then 1 else 0)
                                  + length (filter (sel k) rows))%nat)).
    + rewrite list_sum_add, IH.
      * rewrite (one_group_of_row ks a Hnd); [reflexivity |].
        apply Hcov. now left.
      * intros a' Ha'. apply Hcov. now right.
    + intros k. cbn [filter]. destruct (sel k a); reflexivity.
Qed.
End Groups.

Lemma has_key_disjoint {A : Type} (key : A -> option Z) k k' a :
  has_key key k a = true -> has_key key k' a = true -> k = k'.
Proof.
  unfold has_key. destruct (key a); [| discriminate].
  intros H1 H2. apply Z.eqb_eq in H1, H2. congruence.
Qed.

(** *** Buckets as intervals *)

Lemma floor_to_interval (w t s : Z) :
  (0 < w)%Z ->
  (floor_to w t = s <-> (s <= t < s + w)%Z /\ (s mod w = 0)%Z).
Proof.
  intros Hw. unfold floor_to.
  pose proof (Z.mod_pos_bound t w Hw) as Hb.
  pose proof (Z.div_mod t w ltac:(lia)) as Hdm.
  split.
  - intros <-. split; [lia |].
    replace (t - t mod w)%Z with (t / w * w)%Z by lia.
    apply Z.mod_mul. lia.
  - intros [Hs Hm].
    pose proof (Z.div_mod s w ltac:(lia)) as Hsd. rewrite Hm in Hsd.
    assert (E : (t - s = t mod w)%Z).
    { apply (Z.mod_unique_pos t w (s / w)); lia. }
    lia.
Qed.

Lemma has_key_floor (w : Z) (r : row (option Timestamp)) (s : Z) :
  (0 < w)%Z ->
  has_key (fun r => option_map (floor_to w) (timestamp r)) s r = true <->
  in_interval s (s + w)%Z (timestamp r) = true /\ (s mod w = 0)%Z.
Proof.
  intros Hw. unfold has_key, in_interval.
  destruct (timestamp r) as [t |]; cbn [option_map].
  - rewrite Z.eqb_eq, (floor_to_interval w t s Hw), andb_true_iff, Z.leb_le, Z.ltb_lt.
    tauto.
  - split; [discriminate | intros [H _]; discriminate].
Qed.

Lemma nodup_length_le (l : list string) :
  (length (nodup string_dec l) <= length l)%nat.
Proof.
  induction l as [| x l IH]; cbn; [lia |].
  destruct (in_dec string_dec x l); cbn; lia.
Qed.

Lemma nodup_nonempty (l : list string) :
  l <> [] -> (1 <= length (nodup string_dec l))%nat.
Proof.
  destruct l as [| x l]; [congruence |]. intros _.
  assert (In x (nodup string_dec (x :: l))) by (apply nodup_In; now left).
  destruct (nodup string_dec (x :: l)); [contradiction | cbn; lia].
Qed.

Lemma omap_length_le {A B : Type} (f : A -> option B) (l : list A) :
  (length (omap f l) <= length l)%nat.
Proof.
  induction l as [| a l IH]; [cbn; lia |].
  rewrite AnalyzerProps.omap_cons. destruct (f a); cbn [length]; lia.
Qed.

(** X13: the peak periods have distinct start times, each the start of
    a 5-minute bucket; the error count of an entry is the number of error
    records whose timestamp lies in the five minutes from its start, and is
    at least one; an entry names at least one file and at most as many files
    and transaction ids as it has errors, and at most three categories.
    The error counts of the entries add up to at most the number of error
    records, and there is no entry exactly when no error record has a
    timestamp. *)
Theorem peak_period_buckets (df : dframe) :
  let res := identify_peak_periods df 5 in
  NoDup (map peak_start_time res) /\
  (forall e, In e res ->
     let s := peak_start_time e in
     (s mod (5 * minute_ns) = 0)%Z /\
     error_count e
     = count_true (fun r => has_error r
                            && in_interval s (s + 5 * minute_ns)%Z (timestamp r)) df /\
     (1 <= error_count e)%nat /\
     (1 <= affected_files e <= error_count e)%nat /\
     (unique_transactions e <= error_count e)%nat /\
     (length (top_error_categories e) <= 3)%nat) /\
  (list_sum (map error_count res) <= count_true has_error df)%nat /\
  (res = [] <->
   forall r, In r df -> has_error r = true -> timestamp r = None).
Proof.
  cbn zeta. rewrite AnalyzerProps.identify_peak_periods_ranked.
  set (entries := map (peak_entry df) (peak_keys df)).
  assert (Hw : (0 < 5 * minute_ns)%Z) by reflexivity.
  assert (Hstarts : map peak_start_time entries = peak_keys df).
  { unfold entries. rewrite map_map. cbn [peak_entry peak_start_time]. apply map_id. }
  assert (Hperm := AnalyzerProps.sort_desc_perm error_count entries).
  assert (Hbucket : forall k,
             peak_bucket df k
             = filter (fun r => has_error r
                                && in_interval k (k + 5 * minute_ns)%Z (timestamp r)) df
             \/ peak_bucket df k = []).
  { intros k. destruct (Z.eq_dec (k mod (5 * minute_ns)) 0) as [Hk | Hk].
    - left. unfold peak_bucket. apply filter_ext. intros r. f_equal.
      apply eq_true_iff_eq. unfold peak_key.
      rewrite (has_key_floor (5 * minute_ns) r k Hw). tauto.
    - right. apply AnalyzerProps.filter_nil_iff. intros r _.
      destruct (has_error r); [cbn | reflexivity].
      destruct (has_key peak_key k r) eqn:E; [| reflexivity].
      apply (has_key_floor (5 * minute_ns) r k Hw) in E. tauto. }
  split; [| split; [| split]].
  - rewrite <- firstn_map. apply AnalyzerProps.nodup_firstn.
    apply (Permutation_NoDup (l := map peak_start_time entries)).
    + apply Permutation_map, Permutation_sym, Hperm.
    + rewrite Hstarts. apply AnalyzerProps.sorted_keys_nodup.
  - intros e He. apply AnalyzerProps.in_firstn in He.
    apply (proj1 (AnalyzerProps.in_sort_desc _ _ _)) in He.
    unfold entries in He. apply in_map_iff in He. destruct He as (k & <- & Hk).
    cbn [peak_entry peak_start_time error_count affected_files unique_transactions
         top_error_categories].
    apply AnalyzerProps.in_peak_keys in Hk.
    assert (Hlen : (1 <= length (peak_bucket df k))%nat).
    { destruct (peak_bucket df k); [congruence | cbn; lia]. }
    assert (Hmod : (k mod (5 * minute_ns) = 0)%Z).
    { destruct (peak_bucket df k) as [| r l] eqn:E; [congruence |].
      assert (Hr : In r (peak_bucket df k)) by (rewrite E; now left).
      apply filter_In in Hr. destruct Hr as [_ Hr].
      apply andb_true_iff in Hr. destruct Hr as [_ Hr].
      now apply (has_key_floor (5 * minute_ns) r k Hw) in Hr. }
    split; [exact Hmod |]. split.
    { destruct (Hbucket k) as [E | E]; [| congruence].
      unfold count_true. now rewrite <- E. }
    split; [exact Hlen |]. split; [split |]; [| | split].
    + unfold nunique. apply nodup_nonempty.
      destruct (peak_bucket df k); [congruence | discriminate].
    + unfold nunique. etransitivity; [apply nodup_length_le |]. now rewrite length_map.
    + unfold nunique. etransitivity; [apply nodup_length_le |].
      etransitivity; [apply filter_length_le | apply omap_length_le].
    + unfold most_common, nlargest. apply firstn_le_length.
  - etransitivity.
    { rewrite <- firstn_map. apply list_sum_firstn. }
    rewrite (Permutation_list_sum (Permutation_map error_count Hperm)).
    unfold entries. rewrite map_map. cbn [peak_entry error_count].
    unfold peak_bucket, count_true.
    rewrite (map_ext _ (fun k => length (filter (has_key peak_key k) (errors_of df)))).
    + etransitivity.
      * apply (groups_bound (has_key peak_key)); [apply has_key_disjoint |].
        apply AnalyzerProps.sorted_keys_nodup.
      * reflexivity.
    + intros k. now rewrite AnalyzerProps.peak_bucket_eq.
  - split.
    + intros Hnil r Hr He.
      destruct (timestamp r) as [t |] eqn:Et; [| reflexivity]. exfalso.
      assert (Hin : In (floor_to (5 * minute_ns) t) (peak_keys df)).
      { apply AnalyzerProps.in_peak_keys. intros E. unfold peak_bucket in E.
        pose proof (proj1 (AnalyzerProps.filter_nil_iff _ _) E r Hr) as E'.
        cbn beta in E'. rewrite He in E'. unfold has_key, peak_key in E'.
        rewrite Et in E'. cbn [option_map andb] in E'.
        rewrite Z.eqb_refl in E'. discriminate. }
      assert (Hin' : In (peak_entry df (floor_to (5 * minute_ns) t))
                        (sort_desc error_count entries)).
      { apply AnalyzerProps.in_sort_desc. unfold entries. now apply in_map. }
      destruct (sort_desc error_count entries) as [| e l]; [contradiction |].
      discriminate.
    + intros Hnone.
      assert (Hk : peak_keys df = []).
      { destruct (peak_keys df) as [| k ks] eqn:E; [reflexivity |]. exfalso.
        assert (Hin : In k (peak_keys df)) by (rewrite E; now left).
        apply AnalyzerProps.in_peak_keys in Hin.
        destruct (peak_bucket df k) as [| r l] eqn:Eb; [congruence |].
        assert (Hr : In r (peak_bucket df k)) by (rewrite Eb; now left).
        apply filter_In in Hr. destruct Hr as [Hr Hc].
        apply andb_true_iff in Hc. destruct Hc as [He Hkey].
        unfold has_key, peak_key in Hkey. rewrite (Hnone r Hr He) in Hkey.
        discriminate. }
      unfold entries. rewrite Hk. reflexivity.
Qed.

(** *** The pattern list *)




Section PatternList.
Variable timestamp_str : option Timestamp -> string.
Variable sort_values : list (string * nat) -> list (string * nat).
Variable list_set : list string -> list string.




Hypothesis sort_values_perm : forall l, Permutation (sort_values l) l.


End PatternList.


End AnalyzerMoreProps.

(** ** Properties of the timeline *)

Module TimelineProps.
Import DataAnalyzer AnalyzerSpec AnalyzerMoreSpec PipelineSpec.

(** The guard [if sublist] of the flattening changes nothing. *)
Lemma guarded_flatten (x : list (list string)) :
  flat_map (fun sublist => filter (fun _ => negb (empty sublist)) sublist) x
  = concat x.
Proof.
  induction x as [| sub x IH]; [reflexivity |].
  cbn [flat_map concat]. rewrite IH. f_equal.
  destruct sub as [| c sub]; [reflexivity |]. cbn [empty negb].
  apply forallb_filter_id. apply forallb_forall. reflexivity.
Qed.

Lemma count_occ_filter (l : list string) (x : string) :
  count_occ string_dec l x = length (filter (String.eqb x) l).
Proof.
  induction l as [| a l IH]; [reflexivity |].
  cbn [count_occ filter]. destruct (string_dec a x) as [-> | Hne].
  - rewrite String.eqb_refl. cbn [length]. now rewrite IH.
  - destruct (String.eqb_spec x a) as [-> | _]; [congruence | exact IH].
Qed.

(** The counts of a [Counter] add up to the number of counted items. *)
Lemma Counter_total (l : list string) :
  list_sum (map snd (Counter l)) = length l.
Proof.
  unfold Counter. rewrite map_map. cbn [snd].
  rewrite (map_ext _ (fun x => length (filter (String.eqb x) l)));
    [| intros x; apply count_occ_filter].
  apply (AnalyzerMoreProps.groups_cover String.eqb).
  - intros k k' a H1 H2. apply String.eqb_eq in H1, H2. congruence.
  - apply AnalyzerProps.uniq_nodup.
  - intros a Ha. exists a. split; [now apply AnalyzerProps.in_uniq |].
    apply String.eqb_refl.
Qed.

(** The groups of a [groupby] hold exactly the rows that have a key,
    whatever further condition selects among them. *)
Lemma groups_total {A : Type} (key : A -> option Z) (p : A -> bool) (rows : list A) :
  list_sum (map (fun k => length (filter p (filter (has_key key k) rows)))
                (sorted_keys (omap key rows)))
  = length (filter (fun a => p a && match key a with Some _ => true | None => false end)
                   rows).
Proof.
  set (sub := filter (fun a => p a && match key a with Some _ => true | None => false end)
                     rows).
  rewrite (map_ext _ (fun k => length (filter (has_key key k) sub))).
  - apply (AnalyzerMoreProps.groups_cover (has_key key)).
    + apply AnalyzerMoreProps.has_key_disjoint.
    + apply AnalyzerProps.sorted_keys_nodup.
    + intros a Ha. apply filter_In in Ha. destruct Ha as [Ha Hp].
      apply andb_true_iff in Hp. destruct Hp as [_ Hk].
      destruct (key a) as [k |] eqn:E; [| discriminate]. exists k. split.
      * apply AnalyzerProps.in_sorted_keys, AnalyzerProps.in_omap. now exists a.
      * unfold has_key. rewrite E. apply Z.eqb_refl.
  - intros k. unfold sub. rewrite !AnalyzerProps.filter_filter_and. f_equal.
    apply filter_ext. intros a. unfold has_key.
    destruct (key a); destruct (p a); cbn; try reflexivity.
    + now rewrite andb_true_r.
    + now rewrite andb_false_r.
Qed.

Lemma filter_true_id {A : Type} (rows : list A) :
  filter (fun _ => true) rows = rows.
Proof. apply forallb_filter_id. apply forallb_forall. reflexivity. Qed.

Section TimelineRows.
Variable sort_values : list (string * nat) -> list (string * nat).

Lemma generate_timeline_by_key (df : dframe) (n : Z) :
  Timeline.generate_timeline sort_values df n
  = map (fun k => Timeline.timeline_of sort_values
                    (k, filter (has_key (Timeline.bin_key n) k) df))
        (sorted_keys (omap (Timeline.bin_key n) df)).
Proof.
  unfold Timeline.generate_timeline. destruct df as [| r df]; [reflexivity |].
  cbn [empty]. unfold groupby. now rewrite map_map.
Qed.

Lemma timeline_keys (df : dframe) (n : Z) :
  map Timeline.time_bin (Timeline.generate_timeline sort_values df n)
  = sorted_keys (omap (Timeline.bin_key n) df).
Proof.
  rewrite generate_timeline_by_key, map_map. cbn. apply map_id.
Qed.

Lemma timeline_total_logs (df : dframe) (n : Z) :
  list_sum (map Timeline.total_logs (Timeline.generate_timeline sort_values df n))
  = count_true has_time df.
Proof.
  rewrite generate_timeline_by_key, map_map. cbn [Timeline.timeline_of Timeline.total_logs].
  rewrite (map_ext _ (fun k => length (filter (fun _ => true)
                                         (filter (has_key (Timeline.bin_key n) k) df))));
    [| intros k; now rewrite filter_true_id].
  rewrite groups_total. unfold count_true. f_equal. apply filter_ext.
  intros r. unfold has_time, Timeline.bin_key. now destruct (timestamp r).
Qed.

Lemma timeline_total_errors (df : dframe) (n : Z) :
  list_sum (map Timeline.total_errors (Timeline.generate_timeline sort_values df n))
  = count_true (fun r => has_error r && has_time r) df.
Proof.
  rewrite generate_timeline_by_key, map_map.
  cbn [Timeline.timeline_of Timeline.total_errors].
  etransitivity;
    [exact (groups_total (Timeline.bin_key n) (fun r => has_error r) df) |].
  unfold count_true. f_equal. apply filter_ext.
  intros r. unfold has_time, Timeline.bin_key. now destruct (timestamp r).
Qed.

(** X16: the timeline has one row per interval that holds a record with
    a timestamp, in ascending order of the interval's start, which is a
    multiple of the interval.  A row counts the records whose timestamp lies
    in its interval and the error records among them, and lists their
    category labels; the category counts add up to the number of labels.
    Over the whole timeline the log counts add up to the number of records
    that have a timestamp, and the error counts to the number of error
    records that have one: a record without a timestamp is in no row. *)
Theorem timeline_buckets (df : dframe) (n : Z) :
  (0 < n)%Z ->
  let w := (n * minute_ns)%Z in
  let tl := Timeline.generate_timeline sort_values df n in
  StronglySorted Z.lt (map Timeline.time_bin tl) /\
  (forall e, In e tl ->
     let s := Timeline.time_bin e in
     let inb := fun r : row (option Timestamp) =>
                  in_interval s (s + w)%Z (timestamp r) in
     (s mod w = 0)%Z /\
     Timeline.total_logs e = count_true inb df /\
     (1 <= Timeline.total_logs e)%nat /\
     Timeline.total_errors e = count_true (fun r => has_error r && inb r) df /\
     (Timeline.total_errors e <= Timeline.total_logs e)%nat /\
     Timeline.error_categories e = flat_map error_categories (filter inb df) /\
     list_sum (map snd (Timeline.category_counts e))
     = length (Timeline.error_categories e)) /\
  list_sum (map Timeline.total_logs tl) = count_true has_time df /\
  list_sum (map Timeline.total_errors tl)
  = count_true (fun r => has_error r && has_time r) df.
Proof.
  intros Hn. cbn zeta.
  assert (Hw : (0 < n * minute_ns)%Z) by (unfold minute_ns, second_ns; lia).
  split; [| split; [| split]].
  - rewrite timeline_keys. apply AnalyzerProps.sorted_keys_sorted.
  - intros e He. rewrite generate_timeline_by_key in He.
    apply in_map_iff in He. destruct He as (k & <- & Hk).
    cbn [Timeline.timeline_of Timeline.time_bin Timeline.total_logs
         Timeline.total_errors Timeline.error_categories Timeline.category_counts].
    apply AnalyzerProps.group_key_iff in Hk.
    assert (Hmod : (k mod (n * minute_ns) = 0)%Z).
    { destruct (filter (has_key (Timeline.bin_key n) k) df) as [| r l] eqn:E;
        [congruence |].
      assert (Hr : In r (filter (has_key (Timeline.bin_key n) k) df))
        by (rewrite E; now left).
      apply filter_In in Hr. destruct Hr as [_ Hr].
      now apply (AnalyzerMoreProps.has_key_floor (n * minute_ns) r k Hw) in Hr. }
    assert (Hb : filter (has_key (Timeline.bin_key n) k) df
                 = filter (fun r => in_interval k (k + n * minute_ns)%Z (timestamp r)) df).
    { apply filter_ext. intros r. apply eq_true_iff_eq.
      unfold Timeline.bin_key.
      rewrite (AnalyzerMoreProps.has_key_floor (n * minute_ns) r k Hw). tauto. }
    rewrite Hb in *. rewrite guarded_flatten, <- flat_map_concat_map.
    split; [exact Hmod |]. split; [reflexivity |]. split.
    { destruct (filter _ df); [congruence | cbn; lia]. }
    split.
    { unfold count_true. rewrite AnalyzerProps.filter_filter_and. f_equal.
      apply filter_ext. intros r. apply andb_comm. }
    split; [apply filter_length_le |]. split; [reflexivity |].
    destruct (flat_map error_categories _) as [| c cs] eqn:Ec; [reflexivity |].
    cbn [empty]. apply Counter_total.
  - apply timeline_total_logs.
  - apply timeline_total_errors.
Qed.
End TimelineRows.

Lemma timeline_buckets_witness :
  (0 < 15)%Z /\
  list_sum (map Timeline.total_logs
              (Timeline.generate_timeline stable_sort_values cascade_frame 15))
  = 4%nat.
Proof.
  assert (Hn : (0 < 15)%Z) by lia.
  split; [exact Hn |].
  destruct (timeline_buckets stable_sort_values cascade_frame 15 Hn)
    as (_ & _ & Hlogs & _).
  rewrite Hlogs. reflexivity.
Defined.

End TimelineProps.

(** ** The parser and the analyzer together *)

Module PipelineProps.
Import LogParser ParserSpec DataAnalyzer AnalyzerSpec AnalyzerMoreSpec PipelineSpec.
Import ToDataFrame.

(** *** The records behind a frame *)



Section Frames.
Variable to_timestamp : datetime -> option Timestamp.
Variable column_set : list string -> list string.





Section Counts.
Variable timestamp_str : option Timestamp -> string.
Variable sort_values : list (string * nat) -> list (string * nat).
Variable list_set : list string -> list string.


End Counts.

(** *** Transaction ids *)


End Frames.



(** *** The window and what is computed inside it *)

Lemma floor_to_ge (w s t : Z) :
  (0 < w)%Z -> (s mod w = 0)%Z -> (s <= t)%Z -> (s <= floor_to w t <= t)%Z.
Proof.
  intros Hw Hs Hle. unfold floor_to.
  pose proof (Z.mod_pos_bound t w Hw) as Hb.
  pose proof (Z.div_mod t w ltac:(lia)) as Ht.
  pose proof (Z.div_mod s w ltac:(lia)) as Hs'.
  pose proof (Z.div_le_mono s t w Hw Hle) as Hd.
  split; [| lia]. nia.
Qed.

Lemma init_start_aligned (d : Timestamp) (b : bool) (w : Z) :
  (0 < w)%Z -> (hour_ns mod w = 0)%Z -> (start_time (init d b) mod w = 0)%Z.
Proof.
  intros Hw Hh. cbn [init start_time].
  destruct (AnalyzerMoreProps.day_floor d) as [-> _].
  apply Z.mod_divide in Hh; [| lia]. apply Z.mod_divide; [lia |].
  destruct Hh as [q Hq]. exists ((d / day_ns * 24 + 9) * q)%Z. rewrite Hq. ring.
Qed.

Section Windowed.
Variable parse_text : string -> option Timestamp.

Lemma windowed_in (a : analyzer) (df : dframe) (r : row (option Timestamp)) :
  In r (windowed parse_text a df) ->
  exists t, timestamp r = Some t /\ (start_time a <= t <= end_time a)%Z.
Proof.
  unfold windowed, as_times. intros H. apply in_map_iff in H.
  destruct H as (c & <- & Hc).
  rewrite AnalyzerProps.filter_by_timeframe_spec in Hc.
  apply AnalyzerProps.window_filter_spec_in in Hc.
  destruct Hc as (r0 & t & _ & _ & Hin & ->). exists t. split; [reflexivity | exact Hin].
Qed.

(** The start of a bucket of rows that lie in the window lies in the
    window, when the window starts at a multiple of the bucket width. *)
Lemma bucket_in_window (a : analyzer) (w : Z) (rows : dframe) (k : Z) :
  (0 < w)%Z -> (start_time a mod w = 0)%Z ->
  (forall r, In r rows ->
             exists t, timestamp r = Some t /\ (start_time a <= t <= end_time a)%Z) ->
  In k (sorted_keys (omap (fun r => option_map (floor_to w) (timestamp r)) rows)) ->
  (start_time a <= k <= end_time a)%Z.
Proof.
  intros Hw Hs Hrows Hk.
  apply AnalyzerProps.in_sorted_keys, AnalyzerProps.in_omap in Hk.
  destruct Hk as (r & Hr & Hk). destruct (Hrows r Hr) as (t & Et & Hin).
  rewrite Et in Hk. cbn [option_map] in Hk. inversion Hk; subst.
  pose proof (floor_to_ge w (start_time a) t Hw Hs ltac:(lia)). lia.
Qed.

Variable timestamp_str : option Timestamp -> string.
Variable sort_values : list (string * nat) -> list (string * nat).
Variable list_set : list string -> list string.

(** X19: after [filter_by_timeframe] with the window of [__init__],
    every record has a timestamp between 09:00 and 14:00 of the target day,
    and so has every result computed from the filtered frame: the start of
    each peak period, the minute of each error burst and the start of each
    row of the timeline lie in the window, and the timeline accounts for
    every record of the filtered frame. *)
Theorem window_bounds_results (d : Timestamp) (b : bool) (df : dframe) :
  let a := init d b in
  let fdf := windowed parse_text a df in
  (end_time a = start_time a + 5 * hour_ns)%Z /\
  (forall r, In r fdf ->
     exists t, timestamp r = Some t /\ (start_time a <= t <= end_time a)%Z) /\
  (forall p, In p (identify_peak_periods fdf 5) ->
     (start_time a <= peak_start_time p <= end_time a)%Z) /\
  (forall m c s,
     In (error_burst m c s)
        (patterns (analyze_error_patterns timestamp_str sort_values list_set fdf)) ->
     (start_time a <= m <= end_time a)%Z) /\
  (forall e, In e (Timeline.generate_timeline sort_values fdf 15) ->
     (start_time a <= Timeline.time_bin e <= end_time a)%Z) /\
  list_sum (map Timeline.total_logs (Timeline.generate_timeline sort_values fdf 15))
  = length fdf.
Proof.
  cbn zeta. set (a := init d b). set (fdf := windowed parse_text a df).
  assert (Hrows : forall r, In r fdf ->
            exists t, timestamp r = Some t /\ (start_time a <= t <= end_time a)%Z)
    by (intros r; apply windowed_in).
  assert (Herr : forall r, In r (errors_of fdf) ->
            exists t, timestamp r = Some t /\ (start_time a <= t <= end_time a)%Z).
  { intros r Hr. apply filter_In in Hr. now apply Hrows. }
  assert (Hal : forall w, (0 < w)%Z -> (hour_ns mod w = 0)%Z ->
                          (start_time a mod w = 0)%Z)
    by (intros w; apply init_start_aligned).
  split; [cbn; lia |]. split; [exact Hrows |]. split; [| split; [| split]].
  - intros p Hp. rewrite AnalyzerProps.identify_peak_periods_ranked in Hp.
    apply AnalyzerProps.in_firstn in Hp.
    apply (proj1 (AnalyzerProps.in_sort_desc _ _ _)) in Hp.
    apply in_map_iff in Hp. destruct Hp as (k & <- & Hk).
    cbn [peak_entry peak_start_time].
    apply (bucket_in_window a (5 * minute_ns) (errors_of fdf) k);
      [reflexivity | apply Hal; reflexivity | exact Herr | exact Hk].
  - intros m c s Hin.
    assert (Hb : In (error_burst m c s) (bursts (errors_of fdf))).
    { unfold analyze_error_patterns in Hin. destruct fdf as [| r0 l0] eqn:E;
        [contradiction |]. cbn [empty patterns] in Hin.
      apply in_app_or in Hin. destruct Hin as [Hin | Hin]; [| exact Hin].
      apply AnalyzerProps.cascades_are_cascades in Hin.
      destruct Hin as (t' & n & s' & c' & E'). discriminate. }
    rewrite AnalyzerProps.bursts_by_key in Hb. apply in_flat_map in Hb.
    destruct Hb as (k & Hk & Hb). cbn zeta in Hb.
    destruct (5 <? length (filter (has_key minute_key k) (errors_of fdf)))%nat;
      [| contradiction].
    destruct Hb as [E | []]. inversion E; subst k.
    apply (bucket_in_window a minute_ns (errors_of fdf) m);
      [reflexivity | apply Hal; reflexivity | exact Herr | exact Hk].
  - intros e He.
    assert (Hk : In (Timeline.time_bin e)
                    (map Timeline.time_bin
                         (Timeline.generate_timeline sort_values fdf 15)))
      by now apply in_map.
    rewrite TimelineProps.timeline_keys in Hk.
    apply (bucket_in_window a (15 * minute_ns) fdf (Timeline.time_bin e));
      [reflexivity | apply Hal; reflexivity | exact Hrows | exact Hk].
  - rewrite TimelineProps.timeline_total_logs. unfold count_true. f_equal.
    apply forallb_filter_id. apply forallb_forall. intros r Hr.
    destruct (Hrows r Hr) as (t & Et & _). unfold has_time. now rewrite Et.
Qed.
End Windowed.

(** *** The category columns *)



Section CategoryColumns.
Variable to_timestamp : datetime -> option Timestamp.
Variable column_set : list string -> list string.
Hypothesis column_set_nodup : forall l, NoDup (column_set l).
Hypothesis column_set_in : forall l x, In x (column_set l) <-> In x l.

End CategoryColumns.




End PipelineProps.
